(** * Layout state of the graph component (components/graph/state/layout.js)

    A shallow embedding of the layout module of the graph component: the
    action creators, the reducer, the selectors and the memoised chart
    position selector, together with the parts of the JavaScript runtime
    they rely on (object allocation, property lookup, object spread,
    strict equality, ToNumber, IEEE-754 multiplication) and the two
    memoisation libraries the module calls (fast-memoize and reselect). *)

From Stdlib Require Import Floats.
From stdpp Require Import base gmap list strings pretty.
From Stdlib Require Import Strings.String Strings.Ascii.

Open Scope string_scope.
#[local] Set Warnings "-inexact-float".

(** ** JavaScript values *)

(** Heap locations of objects. *)
Definition loc := positive.

(** The values the module handles: the data values of a redux store.
    Numbers are IEEE-754 doubles; strings are byte strings. *)
Inductive val :=
| VUndef
| VNull
| VBool (b : bool)
| VNum (f : float)
| VStr (s : string)
| VObj (l : loc).

(** An ordinary object: its own data properties, in creation order. *)
Definition obj := list (string * val).

(** The memo cells of one selector built by [createSelector]: the outer
    [defaultMemoize] around the whole selector (last state argument and
    last result) and the inner one around the result function (last
    container size and last result).  [sel_chartType] is the variable the
    closure captures. *)
Record selector := mk_selector {
  sel_chartType : string;
  sel_outer : option (val * val);
  sel_inner : option (val * val)
}.

(** The mutable world: the object heap, the cache object of fast-memoize
    around [getChartPosition] (cache key -> selector), and the selectors
    created so far; a selector, as a function value, is identified by its
    index in [selectors]. *)
Record world := mk_world {
  heap : gmap loc obj;
  memo_cache : gmap string nat;
  selectors : list selector
}.

Definition empty_world : world := mk_world ∅ ∅ [].

(** ** A state and exception monad *)

(** Completion of a JavaScript computation: a value, or a thrown
    [TypeError] (the only exception the module can raise). *)
Inductive completion (A : Type) :=
| Normal (a : A)
| TypeError.
Arguments Normal {A} a.
Arguments TypeError {A}.

Definition M (A : Type) := world -> completion A * world.

Definition ret {A} (a : A) : M A := fun w => (Normal a, w).

Definition bind {A B} (m : M A) (k : A -> M B) : M B := fun w =>
  match m w with
  | (Normal a, w') => k a w'
  | (TypeError, w') => (TypeError, w')
  end.

Definition throw {A} : M A := fun w => (TypeError, w).

Notation "'let*' x ':=' m 'in' k" := (bind m (fun x => k))
  (at level 200, x name, m at level 100, k at level 200).

(** ** Objects *)

(** [o[k]] on an own-property list; a missing property reads [undefined]. *)
Definition lookup_prop (o : obj) (k : string) : val :=
  match find (fun p => String.eqb (fst p) k) o with
  | Some (_, v) => v
  | None => VUndef
  end.

(** CreateDataProperty: overwrite the property in place, or append it. *)
Fixpoint set_prop (o : obj) (k : string) (v : val) : obj :=
  match o with
  | [] => [(k, v)]
  | (k', v') :: r =>
      if String.eqb k' k then (k, v) :: r else (k', v') :: set_prop r k v
  end.

Definition nat_to_float (n : nat) : float :=
  PrimFloat.of_uint63 (Uint63.of_Z (Z.of_nat n)).

(** The own enumerable properties of a string: its indices. *)
Definition string_index_props (s : string) : obj :=
  map (fun i => (pretty i, VStr (substring i 1 s))) (seq 0 (String.length s)).

(** The own enumerable properties an object spread [{...v}] copies. *)
Definition spread_props (h : gmap loc obj) (v : val) : obj :=
  match v with
  | VObj l => match h !! l with Some o => o | None => [] end
  | VStr s => string_index_props s
  | _ => []
  end.

(** [v[k]] on a value that is neither [undefined] nor [null].  A string
    has its indices and its [length] as own properties.  The names the
    module reads (type, payload, width, height, ...) are not inherited
    from Object.prototype, String.prototype, Number.prototype or
    Boolean.prototype, so the prototype chain is left out. *)
Definition read_prop (h : gmap loc obj) (v : val) (k : string) : val :=
  match v with
  | VStr s =>
      if String.eqb k "length" then VNum (nat_to_float (String.length s))
      else lookup_prop (string_index_props s) k
  | VObj l => match h !! l with Some o => lookup_prop o k | None => VUndef end
  | _ => VUndef
  end.

(** [v[k]]: a TypeError on [undefined] and [null]. *)
Definition get_prop (v : val) (k : string) : M val := fun w =>
  match v with
  | VUndef | VNull => (TypeError, w)
  | _ => (Normal (read_prop (heap w) v k), w)
  end.

(** Allocation of a new object at a fresh location. *)
Definition alloc (o : obj) : M loc := fun w =>
  let l := fresh (dom (heap w)) in
  (Normal l, mk_world (<[l := o]> (heap w)) (memo_cache w) (selectors w)).

Definition update_obj (l : loc) (f : obj -> obj) : M unit := fun w =>
  match heap w !! l with
  | Some o => (Normal tt, mk_world (<[l := f o]> (heap w)) (memo_cache w) (selectors w))
  | None => (Normal tt, w)
  end.

(** A property definition [k: v] in an object literal. *)
Definition define_prop (l : loc) (k : string) (v : val) : M unit :=
  update_obj l (fun o => set_prop o k v).

(** CopyDataProperties, the [...v] of an object literal. *)
Definition copy_data_properties (l : loc) (v : val) : M unit := fun w =>
  update_obj l (fun o => fold_left (fun acc p => set_prop acc (fst p) (snd p))
                                   (spread_props (heap w) v) o) w.

(** Strict equality [===]: numbers by IEEE equality (NaN differs from
    itself, +0 equals -0), objects by reference. *)
Definition strict_eq (a b : val) : bool :=
  match a, b with
  | VUndef, VUndef | VNull, VNull => true
  | VBool x, VBool y => Bool.eqb x y
  | VNum x, VNum y => PrimFloat.eqb x y
  | VStr x, VStr y => String.eqb x y
  | VObj x, VObj y => Pos.eqb x y
  | _, _ => false
  end.

(** ToBoolean, used by [||]. *)
Definition truthy (v : val) : bool :=
  match v with
  | VUndef | VNull => false
  | VBool b => b
  | VNum f => negb (PrimFloat.eqb f 0%float || PrimFloat.is_nan f)
  | VStr s => negb (String.eqb s "")
  | VObj _ => true
  end.

(** ** layout.js: action types *)

Definition MOUNT_POINT : string := "components/graph/layout".
Definition GRAPH_SIZE_SET : string := String.append MOUNT_POINT "/GRAPH_SIZE_SET".
Definition GRAPH_SELECTION_RECT_SET : string :=
  String.append MOUNT_POINT "/GRAPH_SELECTION_RECT_SET".
Definition GRAPH_SELECTION_RECT_CLEAR : string :=
  String.append MOUNT_POINT "/GRAPH_SELECTION_RECT_CLEAR".
Definition VIEWPORT_RESET : string := String.append MOUNT_POINT "/VIEWPORT_RESET".
Definition VIEWPORT_SET : string := String.append MOUNT_POINT "/VIEWPORT_SET".

(** ** layout.js: action creators *)

(** [setViewport({startDate, endDate})]: the destructuring parameter reads
    both properties (a TypeError on undefined or null), then the literal
    [{type, payload: {startDate, endDate}}] is built. *)
Definition setViewport (arg : val) : M val :=
  let* startDate := get_prop arg "startDate" in
  let* endDate := get_prop arg "endDate" in
  let* o := alloc [] in
  let* _ := define_prop o "type" (VStr VIEWPORT_SET) in
  let* p := alloc [] in
  let* _ := define_prop p "startDate" startDate in
  let* _ := define_prop p "endDate" endDate in
  let* _ := define_prop o "payload" (VObj p) in
  ret (VObj o).

Definition resetViewport : M val :=
  let* o := alloc [] in
  let* _ := define_prop o "type" (VStr VIEWPORT_RESET) in
  ret (VObj o).

Definition setContainerSize (arg : val) : M val :=
  let* width := get_prop arg "width" in
  let* height := get_prop arg "height" in
  let* o := alloc [] in
  let* _ := define_prop o "type" (VStr GRAPH_SIZE_SET) in
  let* p := alloc [] in
  let* _ := define_prop p "width" width in
  let* _ := define_prop p "height" height in
  let* _ := define_prop o "payload" (VObj p) in
  ret (VObj o).

Definition setSelectionRect (arg : val) : M val :=
  let* top := get_prop arg "top" in
  let* left := get_prop arg "left" in
  let* bottom := get_prop arg "bottom" in
  let* right := get_prop arg "right" in
  let* o := alloc [] in
  let* _ := define_prop o "type" (VStr GRAPH_SELECTION_RECT_SET) in
  let* p := alloc [] in
  let* _ := define_prop p "top" top in
  let* _ := define_prop p "left" left in
  let* _ := define_prop p "bottom" bottom in
  let* _ := define_prop p "right" right in
  let* _ := define_prop o "payload" (VObj p) in
  ret (VObj o).

Definition clearSelectionRect : M val :=
  let* o := alloc [] in
  let* _ := define_prop o "type" (VStr GRAPH_SELECTION_RECT_CLEAR) in
  ret (VObj o).

(** ** layout.js: selectors *)

(** [state => state[MOUNT_POINT].viewport] *)
Definition getViewport (state : val) : M val :=
  let* slice := get_prop state MOUNT_POINT in
  get_prop slice "viewport".

(** [state => state[MOUNT_POINT].graphSize || {width: 0, height: 0}] *)
Definition getContainerSize (state : val) : M val :=
  let* slice := get_prop state MOUNT_POINT in
  let* graphSize := get_prop slice "graphSize" in
  if truthy graphSize then ret graphSize
  else
    let* o := alloc [] in
    let* _ := define_prop o "width" (VNum 0) in
    let* _ := define_prop o "height" (VNum 0) in
    ret (VObj o).

(** [state => state[MOUNT_POINT].selectionRect] *)
Definition getSelectionRect (state : val) : M val :=
  let* slice := get_prop state MOUNT_POINT in
  get_prop slice "selectionRect".

(** ** layout.js: the reducer *)

(** [action.payload.k] *)
Definition payload_field (action : val) (k : string) : M val :=
  let* p := get_prop action "payload" in
  get_prop p k.

(** [reducer(state = {}, action)]: the default parameter allocates [{}]
    when [state] is undefined; the [switch] compares [action.type] with
    each case by [===]; each recognised case builds
    [{...state, field: ...}]. *)
Definition reducer (state0 action : val) : M val :=
  let* state := match state0 with
                 | VUndef => let* l := alloc [] in ret (VObj l)
                 | _ => ret state0
                 end in
  let* type := get_prop action "type" in
  if strict_eq type (VStr GRAPH_SIZE_SET) then
    let* o := alloc [] in
    let* _ := copy_data_properties o state in
    let* g := alloc [] in
    let* width := payload_field action "width" in
    let* _ := define_prop g "width" width in
    let* height := payload_field action "height" in
    let* _ := define_prop g "height" height in
    let* _ := define_prop o "graphSize" (VObj g) in
    ret (VObj o)
  else if strict_eq type (VStr GRAPH_SELECTION_RECT_SET) then
    let* o := alloc [] in
    let* _ := copy_data_properties o state in
    let* r := alloc [] in
    let* top := payload_field action "top" in
    let* _ := define_prop r "top" top in
    let* left := payload_field action "left" in
    let* _ := define_prop r "left" left in
    let* bottom := payload_field action "bottom" in
    let* _ := define_prop r "bottom" bottom in
    let* right := payload_field action "right" in
    let* _ := define_prop r "right" right in
    let* _ := define_prop o "selectionRect" (VObj r) in
    ret (VObj o)
  else if strict_eq type (VStr GRAPH_SELECTION_RECT_CLEAR) then
    let* o := alloc [] in
    let* _ := copy_data_properties o state in
    let* _ := define_prop o "selectionRect" VNull in
    ret (VObj o)
  else if strict_eq type (VStr VIEWPORT_SET) then
    let* o := alloc [] in
    let* _ := copy_data_properties o state in
    let* v := alloc [] in
    let* startDate := payload_field action "startDate" in
    let* _ := define_prop v "startDate" startDate in
    let* endDate := payload_field action "endDate" in
    let* _ := define_prop v "endDate" endDate in
    let* _ := define_prop o "viewport" (VObj v) in
    ret (VObj o)
  else if strict_eq type (VStr VIEWPORT_RESET) then
    let* o := alloc [] in
    let* _ := copy_data_properties o state in
    let* _ := define_prop o "viewport" VNull in
    ret (VObj o)
  else ret state.

(** ** fast-memoize around [getChartPosition] *)

(** JSON.stringify on a string (QuoteJSONString), the cache key
    fast-memoize's default serializer builds for a non-primitive argument
    (a string is not one of its primitives). *)
Definition quote_char : ascii := ascii_of_nat 34.
Definition backslash : ascii := ascii_of_nat 92.

Definition hex_digit (n : nat) : ascii :=
  ascii_of_nat (if Nat.ltb n 10 then 48 + n else 87 + n).

Definition json_escape (c : ascii) : string :=
  let n := nat_of_ascii c in
  if Nat.eqb n 8 then String backslash "b"
  else if Nat.eqb n 9 then String backslash "t"
  else if Nat.eqb n 10 then String backslash "n"
  else if Nat.eqb n 12 then String backslash "f"
  else if Nat.eqb n 13 then String backslash "r"
  else if Nat.eqb n 34 then String backslash (String quote_char EmptyString)
  else if Nat.eqb n 92 then String backslash (String backslash EmptyString)
  else if Nat.ltb n 32 then
    String backslash (String "u"%char (String "0"%char (String "0"%char
      (String (hex_digit (n / 16)) (String (hex_digit (n mod 16)) EmptyString)))))
  else String c EmptyString.

Fixpoint json_quote_chars (s : string) : string :=
  match s with
  | EmptyString => EmptyString
  | String c r => String.append (json_escape c) (json_quote_chars r)
  end.

Definition json_stringify_string (s : string) : string :=
  String quote_char (String.append (json_quote_chars s) (String quote_char EmptyString)).

(** [getChartPosition = memoize(chartType => createSelector(...))]: the
    monadic strategy looks the key up in its cache object and, on a miss,
    calls the function, which creates a new selector with empty memo
    cells, and stores it under the key. *)
Definition getChartPosition (chartType : string) : M nat := fun w =>
  let key := json_stringify_string chartType in
  match memo_cache w !! key with
  | Some sid => (Normal sid, w)
  | None =>
      let sid := List.length (selectors w) in
      (Normal sid, mk_world (heap w) (<[key := sid]> (memo_cache w))
                            (app (selectors w) [mk_selector chartType None None]))
  end.

(** ** reselect's memo cells *)

Definition get_selector (sid : nat) : M selector := fun w =>
  match selectors w !! sid with
  | Some s => (Normal s, w)
  | None => (TypeError, w)
  end.

Definition modify_selector (sid : nat) (f : selector -> selector) : M unit := fun w =>
  (Normal tt, mk_world (heap w) (memo_cache w) (alter f sid (selectors w))).

Definition set_outer (arg res : val) (s : selector) : selector :=
  mk_selector (sel_chartType s) (Some (arg, res)) (sel_inner s).

Definition set_inner (arg res : val) (s : selector) : selector :=
  mk_selector (sel_chartType s) (sel_outer s) (Some (arg, res)).

(** The test of [defaultMemoize] on a one-argument call: the last
    arguments exist and are [===] to the new ones. *)
Definition memo_hit (cell : option (val * val)) (arg : val) : option val :=
  match cell with
  | Some (a, r) => if strict_eq a arg then Some r else None
  | None => None
  end.

(** ** The chart position selector *)

Section Runtime.

(** StringToNumber (ECMA-262, 7.1.4.1.1): the parse of a numeric string
    to the nearest double, NaN when the string is not numeric.  Every
    statement below holds for any such function. *)
Variable string_to_number : string -> float.

(** ToNumber; an ordinary object converts through its string
    "[object Object]". *)
Definition to_number (v : val) : float :=
  match v with
  | VUndef => PrimFloat.nan
  | VNull => 0%float
  | VBool b => if b then 1%float else 0%float
  | VNum f => f
  | VStr s => string_to_number s
  | VObj _ => string_to_number "[object Object]"
  end.

(** [a * b] on numbers: ToNumber on both operands, then the IEEE-754
    product. *)
Definition js_mul (a b : val) : val :=
  VNum (PrimFloat.mul (to_number a) (to_number b)).

(** The result function given to [createSelector]: the [switch] on the
    captured [chartType]; an unmatched type falls out of the [switch] and
    returns [undefined]. *)
Definition chart_position_result (chartType : string) (size : val) : M val :=
  if String.eqb chartType "main" then
    let* o := alloc [] in
    let* _ := define_prop o "x" (VNum 0) in
    let* _ := define_prop o "y" (VNum 0) in
    let* width := get_prop size "width" in
    let* _ := define_prop o "width" width in
    let* height := get_prop size "height" in
    let* _ := define_prop o "height" (js_mul height (VNum 0.8)) in
    ret (VObj o)
  else if String.eqb chartType "panner" then
    let* o := alloc [] in
    let* _ := define_prop o "x" (VNum 0) in
    let* height := get_prop size "height" in
    let* _ := define_prop o "y" (js_mul height (VNum 0.8)) in
    let* width := get_prop size "width" in
    let* _ := define_prop o "width" width in
    let* height := get_prop size "height" in
    let* _ := define_prop o "height" (js_mul height (VNum 0.2)) in
    ret (VObj o)
  else if String.eqb chartType "lithography" then
    let* o := alloc [] in
    let* width := get_prop size "width" in
    let* _ := define_prop o "x" (js_mul width (VNum 0.9)) in
    let* _ := define_prop o "y" (VNum 0) in
    let* width := get_prop size "width" in
    let* _ := define_prop o "width" (js_mul width (VNum 0.1)) in
    let* height := get_prop size "height" in
    let* _ := define_prop o "height" (js_mul height (VNum 0.8)) in
    ret (VObj o)
  else ret VUndef.

(** reselect's [memoizedResultFunc]: [defaultMemoize(resultFunc)]; the
    last arguments are replaced after every successful call. *)
Definition memoized_result_func (sid : nat) (size : val) : M val :=
  let* s := get_selector sid in
  let* r := match memo_hit (sel_inner s) size with
            | Some r => ret r
            | None => chart_position_result (sel_chartType s) size
            end in
  let* _ := modify_selector sid (set_inner size r) in
  ret r.

(** Calling the selector [getChartPosition(chartType)] on a state: the
    outer [defaultMemoize] of [createSelector], whose body calls the input
    selector [getContainerSize] and then the memoised result function. *)
Definition call_selector (sid : nat) (state : val) : M val :=
  let* s := get_selector sid in
  let* r := match memo_hit (sel_outer s) state with
            | Some r => ret r
            | None =>
                let* size := getContainerSize state in
                memoized_result_func sid size
            end in
  let* _ := modify_selector sid (set_outer state r) in
  ret r.

End Runtime.

(** ** scales.js *)

(** Modelled from the spec: scales.js ([getScaleX], [getScaleY]) is not
    part of the sources, only its test.  A scale is a linear map of a
    domain [[a, b]] onto a range [[r0, r1]], exposing both intervals. *)
Record scale := mk_scale {
  scale_domain : float * float;
  scale_range : float * float
}.

(** Modelled from the spec: the forward mapping of a linear scale. *)
Definition scale_apply (s : scale) (x : float) : float :=
  let '(a, b) := scale_domain s in
  let '(r0, r1) := scale_range s in
  (r0 + (x - a) / (b - a) * (r1 - r0))%float.

(** Modelled from the spec: the container size a scale is built from. *)
Record container_size := mk_container_size {
  cs_width : float;
  cs_height : float
}.

(** Modelled from the spec: [scaleX(domain, size)] maps [domain] onto
    [[0, size.width]]. *)
Definition getScaleX (domain : float * float) (size : container_size) : scale :=
  mk_scale domain (0%float, cs_width size).

(** Modelled from the spec: [scaleY(domain, size)] maps [domain] onto
    [[0, size.height]]. *)
Definition getScaleY (domain : float * float) (size : container_size) : scale :=
  mk_scale domain (0%float, cs_height size).

(** ** Concrete worlds *)

Definition nan_of_string (_ : string) : float := PrimFloat.nan.

Definition size_world : world :=
  mk_world (<[1%positive := [("width", VNum 100); ("height", VNum 3)]]> ∅) ∅ [].

(** ** Derived notions used in the statements *)

(** The rectangle literal [{x, y, width, height}] of the chart positions. *)
Definition rect (x y width height : float) : obj :=
  [("x", VNum x); ("y", VNum y); ("width", VNum width); ("height", VNum height)].

(** No object of [h] changes in [h']. *)
Definition heap_preserved (h h' : gmap loc obj) : Prop :=
  forall l o, h !! l = Some o -> h' !! l = Some o.

(** A value that is neither [undefined] nor [null]. *)
Definition non_nullish (v : val) : bool :=
  match v with VUndef | VNull => false | _ => true end.

(** A reference points into the heap. *)
Definition val_in_heap (h : gmap loc obj) (v : val) : Prop :=
  match v with VObj l => is_Some (h !! l) | _ => True end.

(** The five action types the reducer recognises. *)
Definition recognized_type (v : val) : bool :=
  strict_eq v (VStr GRAPH_SIZE_SET) || strict_eq v (VStr GRAPH_SELECTION_RECT_SET)
  || strict_eq v (VStr GRAPH_SELECTION_RECT_CLEAR) || strict_eq v (VStr VIEWPORT_SET)
  || strict_eq v (VStr VIEWPORT_RESET).

(** The action types whose case reads [action.payload]. *)
Definition payload_type (v : val) : bool :=
  strict_eq v (VStr GRAPH_SIZE_SET) || strict_eq v (VStr GRAPH_SELECTION_RECT_SET)
  || strict_eq v (VStr VIEWPORT_SET).

(** The field of the state a recognised action replaces. *)
Definition target_field (v : val) : string :=
  if strict_eq v (VStr GRAPH_SIZE_SET) then "graphSize"
  else if strict_eq v (VStr VIEWPORT_SET) || strict_eq v (VStr VIEWPORT_RESET)
  then "viewport"
  else "selectionRect".

(** Own-property lists with one entry per key, as JavaScript objects have. *)
Definition keys_unique (o : obj) : Prop := NoDup (map fst o).

(** The own-property list of [{...v}]. *)
Definition spread_copy (h : gmap loc obj) (v : val) : obj :=
  fold_left (fun acc p => set_prop acc (fst p) (snd p)) (spread_props h v) [].

(** No reference of the heap dangles: every value stored in an object
    points into the heap, as in a JavaScript heap. *)
Definition heap_closed (h : gmap loc obj) : Prop :=
  forall l o k v, h !! l = Some o -> In (k, v) o -> val_in_heap h v.

(** A heap of sample objects: the empty state [{}] (1); a size action
    [{type: GRAPH_SIZE_SET, payload: {width: 100, height: 50}}] (2, 3); an
    action of an unknown type (4); a size action without payload (5); a
    global state [{[MOUNT_POINT]: {}}] (6); arguments of [setViewport] (7)
    and [setSelectionRect] (8); two container sizes equal by value (9, 10),
    two layout slices holding them (11, 12) and two global states holding
    the slices (13, 14); a clear-selection action (15) and a
    viewport-reset action (16). *)
Definition demo_heap : gmap loc obj :=
  <[16%positive := [("type", VStr VIEWPORT_RESET)]]> (
  <[15%positive := [("type", VStr GRAPH_SELECTION_RECT_CLEAR)]]> (
  <[14%positive := [(MOUNT_POINT, VObj 12%positive)]]> (
  <[13%positive := [(MOUNT_POINT, VObj 11%positive)]]> (
  <[12%positive := [("graphSize", VObj 10%positive)]]> (
  <[11%positive := [("graphSize", VObj 9%positive)]]> (
  <[10%positive := [("width", VNum 100); ("height", VNum 3)]]> (
  <[9%positive := [("width", VNum 100); ("height", VNum 3)]]> (
  <[8%positive := [("top", VNum 1); ("left", VNum 2); ("bottom", VNum 3);
                   ("right", VNum 4); ("extra", VBool true)]]> (
  <[7%positive := [("startDate", VStr "2018-01-01"); ("endDate", VStr "2018-06-30");
                   ("extra", VNull)]]> (
  <[6%positive := [(MOUNT_POINT, VObj 1%positive)]]> (
  <[5%positive := [("type", VStr GRAPH_SIZE_SET)]]> (
  <[4%positive := [("type", VStr "UNKNOWN")]]> (
  <[3%positive := [("width", VNum 100); ("height", VNum 50)]]> (
  <[2%positive := [("type", VStr GRAPH_SIZE_SET); ("payload", VObj 3%positive)]]> (
  <[1%positive := []]> ∅))))))))))))))).

Definition demo_world : world := mk_world demo_heap ∅ [].

(** A decision procedure for [val_in_heap] and [heap_closed]. *)
Definition val_in_heap_b (h : gmap loc obj) (v : val) : bool :=
  match v with VObj l => bool_decide (is_Some (h !! l)) | _ => true end.

Definition heap_closed_b (h : gmap loc obj) : bool :=
  forallb (fun lo => forallb (fun kv => val_in_heap_b h (snd kv)) (snd lo))
          (map_to_list h).

(** A computation that changes neither the selectors nor the cache of
    fast-memoize. *)
Definition sel_frame {A} (m : M A) : Prop :=
  forall w, selectors (snd (m w)) = selectors w /\ memo_cache (snd (m w)) = memo_cache w.

(** ** Properties of the cache keys and of the actions *)

(** Reading back one escaped character of a JSON string literal: the
    inverse of [json_escape], used to show that the keys are distinct. *)
Definition json_hex_value (h : ascii) : nat :=
  let n := nat_of_ascii h in if Nat.ltb n 58 then n - 48 else n - 87.

Definition json_unescape1 (s : string) : option (ascii * string) :=
  match s with
  | EmptyString => None
  | String c r =>
      if Ascii.eqb c backslash then
        match r with
        | EmptyString => None
        | String d r' =>
            let m := nat_of_ascii d in
            if Nat.eqb m 98 then Some (ascii_of_nat 8, r')
            else if Nat.eqb m 116 then Some (ascii_of_nat 9, r')
            else if Nat.eqb m 110 then Some (ascii_of_nat 10, r')
            else if Nat.eqb m 102 then Some (ascii_of_nat 12, r')
            else if Nat.eqb m 114 then Some (ascii_of_nat 13, r')
            else if Nat.eqb m 117 then
              match r' with
              | String _ (String _ (String h1 (String h2 r''))) =>
                  Some (ascii_of_nat (16 * json_hex_value h1 + json_hex_value h2), r'')
              | _ => None
              end
            else Some (d, r')
        end
      else Some (c, r)
  end.

(** Each entry of fast-memoize's cache names a selector created for the
    chart type whose JSON string is the key. *)
Definition cache_ok (w : world) : bool :=
  forallb (fun '(key, sid) =>
             match selectors w !! sid with
             | Some s => String.eqb (json_stringify_string (sel_chartType s)) key
             | None => false
             end) (map_to_list (memo_cache w)).

(** The same cache, and selectors for the same chart types. *)
Definition types_kept (w w' : world) : Prop :=
  memo_cache w' = memo_cache w
  /\ forall i, sel_chartType <$> selectors w' !! i = sel_chartType <$> selectors w !! i.




(** * Proofs *)

(** ** IEEE-754 multiplication is commutative *)

Lemma SFmul_comm x y :
  SpecFloat.SFmul FloatOps.prec FloatOps.emax x y
  = SpecFloat.SFmul FloatOps.prec FloatOps.emax y x.
Proof.
  destruct x as [sx|sx| |sx mx ex], y as [sy|sy| |sy my ey]; simpl;
    try rewrite Bool.xorb_comm; try reflexivity.
  rewrite Pos.mul_comm, Z.add_comm. reflexivity.
Qed.

Lemma float_mul_comm (x y : float) : (x * y)%float = (y * x)%float.
Proof.
  rewrite <- (FloatAxioms.SF2Prim_Prim2SF (x * y)),
          <- (FloatAxioms.SF2Prim_Prim2SF (y * x)).
  rewrite !FloatAxioms.mul_spec. unfold FloatAxioms.SF64mul.
  rewrite SFmul_comm. reflexivity.
Qed.

(** ** Symbolic execution of the monadic code *)

Lemma fresh_lookup (h : gmap loc obj) : h !! fresh (dom h) = None.
Proof. apply not_elem_of_dom, is_fresh. Qed.

(** Name the next fresh location, record that it was free in every
    earlier heap, and that it differs from every location already known
    to hold an object. *)
Ltac name_fresh :=
  match goal with
  | |- context [fresh (dom ?h)] =>
      let Hf := fresh "Hfresh" in
      pose proof (fresh_lookup h) as Hf;
      let f := fresh "l" in
      set (f := fresh (dom h)) in *; clearbody f;
      repeat match type of Hf with
             | <[_ := _]> _ !! _ = None =>
                 apply lookup_insert_None in Hf as [Hf ?]
             end
  end.

Ltac sep_locs :=
  repeat match goal with
  | Hl : ?h !! ?l = Some _, Hf : ?h !! ?f = None |- _ =>
      lazymatch goal with
      | _ : l <> f |- _ => fail
      | _ => assert (l <> f) by (intros ->; congruence)
      end
  end.

Ltac unfold_js :=
  unfold payload_field, define_prop, copy_data_properties, js_mul,
    bind, ret, throw, alloc, update_obj, get_prop in *.

Ltac run :=
  unfold_js; simpl in *;
  repeat (name_fresh; sep_locs; simplify_map_eq; simpl in * ).

(** Lookups in a heap grown by insertions at locations known apart. *)
Ltac simp_map :=
  repeat (first [ rewrite lookup_insert_eq
                | rewrite lookup_insert_ne by congruence
                | match goal with H : ?h !! ?l = _ |- context [?h !! ?l] => rewrite H end ]).

Ltac preserved :=
  let l' := fresh "l'" in let o' := fresh "o'" in let H' := fresh "H'" in
  intros l' o' H'; sep_locs;
  first [ solve [simp_map; reflexivity] | simplify_map_eq; try reflexivity ].

(** ** The chart position result function *)

Section ChartPosition.

Variable s2n : string -> float.
Variables (w : world) (l : loc) (o : obj) (wd ht : float).
Hypothesis Hl : heap w !! l = Some o.
Hypothesis Hw : lookup_prop o "width" = VNum wd.
Hypothesis Hh : lookup_prop o "height" = VNum ht.

Lemma main_position :
  exists r w', chart_position_result s2n "main" (VObj l) w = (Normal (VObj r), w')
    /\ heap w' !! r = Some (rect 0 0 wd (0.8 * ht))
    /\ heap_preserved (heap w) (heap w').
Proof.
  unfold chart_position_result. simpl. run. rewrite Hw, Hh. simpl.
  eexists _, _. split; [reflexivity|]. simpl. simplify_map_eq.
  rewrite (float_mul_comm ht). split; [reflexivity|]. preserved.
Qed.

Lemma panner_position :
  exists r w', chart_position_result s2n "panner" (VObj l) w = (Normal (VObj r), w')
    /\ heap w' !! r = Some (rect 0 (0.8 * ht) wd (0.2 * ht))
    /\ heap_preserved (heap w) (heap w').
Proof.
  unfold chart_position_result. simpl. run. rewrite Hw, Hh. simpl.
  eexists _, _. split; [reflexivity|]. simpl. simplify_map_eq.
  rewrite (float_mul_comm ht 0.8), (float_mul_comm ht 0.2).
  split; [reflexivity|]. preserved.
Qed.

Lemma lithography_position :
  exists r w', chart_position_result s2n "lithography" (VObj l) w = (Normal (VObj r), w')
    /\ heap w' !! r = Some (rect (0.9 * wd) 0 (0.1 * wd) (0.8 * ht))
    /\ heap_preserved (heap w) (heap w').
Proof.
  unfold chart_position_result. simpl. run. rewrite Hw, Hh. simpl.
  eexists _, _. split; [reflexivity|]. simpl. simplify_map_eq.
  rewrite (float_mul_comm wd 0.9), (float_mul_comm wd 0.1), (float_mul_comm ht 0.8).
  split; [reflexivity|]. preserved.
Qed.

End ChartPosition.

(** ** Reads of objects that already exist *)

Lemma read_prop_preserved h h' v k :
  val_in_heap h v -> heap_preserved h h' -> read_prop h' v k = read_prop h v k.
Proof.
  intros Hv Hp. destruct v; simpl; try reflexivity.
  destruct Hv as [o Ho]. rewrite Ho, (Hp _ _ Ho). reflexivity.
Qed.

Lemma spread_props_preserved h h' v :
  val_in_heap h v -> heap_preserved h h' -> spread_props h' v = spread_props h v.
Proof.
  intros Hv Hp. destruct v; simpl; try reflexivity.
  destruct Hv as [o Ho]. rewrite Ho, (Hp _ _ Ho). reflexivity.
Qed.

Lemma get_prop_normal v k w :
  non_nullish v = true -> get_prop v k w = (Normal (read_prop (heap w) v k), w).
Proof. destruct v; simpl; congruence. Qed.

Lemma heap_preserved_refl h : heap_preserved h h.
Proof. intros l o H. exact H. Qed.

Lemma heap_preserved_trans h1 h2 h3 :
  heap_preserved h1 h2 -> heap_preserved h2 h3 -> heap_preserved h1 h3.
Proof. intros A B l o H. apply B, A, H. Qed.

(** Symbolic execution where some values are unknown: reads of unknown
    values that were in the heap at the start are taken back to it. *)
Ltac old_reads :=
  repeat match goal with
  | Hv : val_in_heap ?h ?v |- context [read_prop ?h' ?v ?k] =>
      assert_fails (unify h h');
      rewrite (read_prop_preserved h h' v k Hv) by preserved
  | Hv : val_in_heap ?h ?v |- context [spread_props ?h' ?v] =>
      assert_fails (unify h h');
      rewrite (spread_props_preserved h h' v Hv) by preserved
  end.

Ltac run_sym :=
  unfold payload_field, define_prop, copy_data_properties, js_mul,
    bind, ret, throw, alloc, update_obj in *; simpl in *;
  repeat (first [ progress simp_map
                | rewrite get_prop_normal by assumption
                | match goal with
                  | H : read_prop ?h ?v ?k = _ |- context [read_prop ?h ?v ?k] =>
                      rewrite H
                  end
                | progress old_reads
                | name_fresh; sep_locs ];
          simpl in * ).

Ltac open_state :=
  match goal with
  | H : val_in_heap _ ?st |- context [reducer ?st] =>
      destruct st; simpl in H;
      repeat match goal with Hs : is_Some _ |- _ => destruct Hs as [os Hos] end
  end.

Ltac finish_branch :=
  eexists _, _, _; split; [reflexivity|]; simpl;
  split; [rewrite lookup_insert_eq; unfold spread_copy, spread_props;
          try (match goal with
               | Hs : heap ?w0 !! ?l0 = Some _ |- context [heap ?w0 !! ?l0] => rewrite Hs
               end); reflexivity|];
  split; [simplify_map_eq; reflexivity|]; preserved.

Ltac finish_clear :=
  eexists _, _; split; [reflexivity|]; simpl;
  split; [rewrite lookup_insert_eq; unfold spread_copy, spread_props;
          try (match goal with
               | Hs : heap ?w0 !! ?l0 = Some _ |- context [heap ?w0 !! ?l0] => rewrite Hs
               end); reflexivity|];
  preserved.

Section Reducer.

Variables (w : world) (st action : val).
Hypothesis Hst : val_in_heap (heap w) st.
Hypothesis Hact : val_in_heap (heap w) action.
Hypothesis Hact_nn : non_nullish action = true.

Lemma reducer_graph_size_set p :
  read_prop (heap w) action "type" = VStr GRAPH_SIZE_SET ->
  read_prop (heap w) action "payload" = p ->
  val_in_heap (heap w) p -> non_nullish p = true ->
  exists r g w', reducer st action w = (Normal (VObj r), w')
    /\ heap w' !! r = Some (set_prop (spread_copy (heap w) st) "graphSize" (VObj g))
    /\ heap w' !! g = Some [("width", read_prop (heap w) p "width");
                            ("height", read_prop (heap w) p "height")]
    /\ heap_preserved (heap w) (heap w').
Proof.
  intros Hty Hpay Hp Hp_nn.
  open_state; unfold reducer; run_sym.
  all: finish_branch.
Qed.

Lemma reducer_selection_rect_set p :
  read_prop (heap w) action "type" = VStr GRAPH_SELECTION_RECT_SET ->
  read_prop (heap w) action "payload" = p ->
  val_in_heap (heap w) p -> non_nullish p = true ->
  exists r g w', reducer st action w = (Normal (VObj r), w')
    /\ heap w' !! r = Some (set_prop (spread_copy (heap w) st) "selectionRect" (VObj g))
    /\ heap w' !! g = Some [("top", read_prop (heap w) p "top");
                            ("left", read_prop (heap w) p "left");
                            ("bottom", read_prop (heap w) p "bottom");
                            ("right", read_prop (heap w) p "right")]
    /\ heap_preserved (heap w) (heap w').
Proof.
  intros Hty Hpay Hp Hp_nn.
  open_state; unfold reducer; run_sym.
  all: finish_branch.
Qed.

Lemma reducer_viewport_set p :
  read_prop (heap w) action "type" = VStr VIEWPORT_SET ->
  read_prop (heap w) action "payload" = p ->
  val_in_heap (heap w) p -> non_nullish p = true ->
  exists r g w', reducer st action w = (Normal (VObj r), w')
    /\ heap w' !! r = Some (set_prop (spread_copy (heap w) st) "viewport" (VObj g))
    /\ heap w' !! g = Some [("startDate", read_prop (heap w) p "startDate");
                            ("endDate", read_prop (heap w) p "endDate")]
    /\ heap_preserved (heap w) (heap w').
Proof.
  intros Hty Hpay Hp Hp_nn.
  open_state; unfold reducer; run_sym.
  all: finish_branch.
Qed.

Lemma reducer_selection_rect_clear :
  read_prop (heap w) action "type" = VStr GRAPH_SELECTION_RECT_CLEAR ->
  exists r w', reducer st action w = (Normal (VObj r), w')
    /\ heap w' !! r = Some (set_prop (spread_copy (heap w) st) "selectionRect" VNull)
    /\ heap_preserved (heap w) (heap w').
Proof.
  intros Hty.
  open_state; unfold reducer; run_sym.
  all: finish_clear.
Qed.

Lemma reducer_viewport_reset :
  read_prop (heap w) action "type" = VStr VIEWPORT_RESET ->
  exists r w', reducer st action w = (Normal (VObj r), w')
    /\ heap w' !! r = Some (set_prop (spread_copy (heap w) st) "viewport" VNull)
    /\ heap_preserved (heap w) (heap w').
Proof.
  intros Hty.
  open_state; unfold reducer; run_sym.
  all: finish_clear.
Qed.

End Reducer.

(** ** Own-property lists *)

Lemma lookup_prop_set_prop_eq o k v : lookup_prop (set_prop o k v) k = v.
Proof.
  induction o as [|[k' v'] o IH]; simpl.
  - unfold lookup_prop. simpl. rewrite String.eqb_refl. reflexivity.
  - destruct (String.eqb_spec k' k) as [->|Hne].
    + unfold lookup_prop. simpl. rewrite String.eqb_refl. reflexivity.
    + unfold lookup_prop in *. simpl.
      apply String.eqb_neq in Hne. rewrite Hne. exact IH.
Qed.

Lemma lookup_prop_set_prop_ne o k k' v :
  k <> k' -> lookup_prop (set_prop o k v) k' = lookup_prop o k'.
Proof.
  intros Hkk. induction o as [|[k0 v0] o IH]; simpl.
  - unfold lookup_prop. simpl.
    apply String.eqb_neq in Hkk. rewrite Hkk. reflexivity.
  - destruct (String.eqb_spec k0 k) as [->|Hne].
    + unfold lookup_prop. simpl.
      apply String.eqb_neq in Hkk. rewrite Hkk. reflexivity.
    + unfold lookup_prop in *. simpl.
      destruct (String.eqb k0 k'); [reflexivity|]. exact IH.
Qed.

Lemma lookup_prop_cons k v o k' :
  lookup_prop ((k, v) :: o) k' = if String.eqb k k' then v else lookup_prop o k'.
Proof. unfold lookup_prop. simpl. destruct (String.eqb k k'); reflexivity. Qed.

Lemma lookup_prop_absent o k :
  existsb (fun p => String.eqb (fst p) k) o = false -> lookup_prop o k = VUndef.
Proof.
  intros H. unfold lookup_prop.
  destruct (find _ o) as [[k' v']|] eqn:E; [|reflexivity].
  apply find_some in E as [Hin Heq].
  assert (existsb (fun p => String.eqb (fst p) k) o = true) as Htrue
    by (apply existsb_exists; exists (k', v'); auto).
  congruence.
Qed.

(** Copying the properties one by one keeps each value when the keys are
    distinct. *)
Lemma lookup_prop_fold_set ps acc k :
  NoDup (map fst ps) ->
  lookup_prop (fold_left (fun acc p => set_prop acc (fst p) (snd p)) ps acc) k
  = if existsb (fun p => String.eqb (fst p) k) ps then lookup_prop ps k
    else lookup_prop acc k.
Proof.
  revert acc. induction ps as [|[k1 v1] ps IH]; intros acc Hnd; simpl; [reflexivity|].
  inversion Hnd as [|? ? Hnotin Hnd']; subst.
  rewrite IH by exact Hnd'. rewrite lookup_prop_cons.
  destruct (String.eqb_spec k1 k) as [->|Hne]; simpl.
  - assert (existsb (fun p => String.eqb (fst p) k) ps = false) as ->.
    { apply Bool.not_true_iff_false. intros Hex.
      apply existsb_exists in Hex as [[k2 v2] [Hin Heq]].
      apply String.eqb_eq in Heq. simpl in Heq. subst.
      apply Hnotin. apply list_elem_of_In. apply in_map_iff. eexists; split; [|exact Hin]; reflexivity. }
    apply lookup_prop_set_prop_eq.
  - destruct (existsb _ ps); [reflexivity|].
    apply lookup_prop_set_prop_ne. exact Hne.
Qed.

Lemma lookup_spread_copy h st k :
  keys_unique (spread_props h st) ->
  lookup_prop (spread_copy h st) k = lookup_prop (spread_props h st) k.
Proof.
  intros Hu. unfold spread_copy. rewrite lookup_prop_fold_set by exact Hu.
  destruct (existsb _ _) eqn:E; [reflexivity|].
  rewrite (lookup_prop_absent _ _ E). reflexivity.
Qed.

Lemma lookup_prop_In o k :
  lookup_prop o k = VUndef \/ exists k', In (k', lookup_prop o k) o.
Proof.
  unfold lookup_prop. destruct (find _ o) as [[k' v']|] eqn:E; [|left; reflexivity].
  right. exists k'. apply find_some in E as [Hin _]. exact Hin.
Qed.

Lemma read_prop_in_heap h v k :
  heap_closed h -> val_in_heap h v -> val_in_heap h (read_prop h v k).
Proof.
  intros Hc Hv. destruct v; simpl; try exact I.
  - destruct (String.eqb k "length"); [exact I|].
    unfold lookup_prop. destruct (find _ _) as [[k' v']|] eqn:E; [|exact I].
    apply find_some in E as [Hin _]. unfold string_index_props in Hin.
    apply in_map_iff in Hin as [i [Heq _]]. inversion Heq. exact I.
  - destruct (h !! l) as [o|] eqn:Ho; [|exact I].
    destruct (lookup_prop_In o k) as [->|[k' Hin]]; [exact I|].
    eapply Hc; eauto.
Qed.

(** ** The remaining paths of the reducer *)

Lemma strict_eq_str v s : strict_eq v (VStr s) = true -> v = VStr s.
Proof. destruct v; simpl; try discriminate. intros H. apply String.eqb_eq in H. subst. reflexivity. Qed.

Lemma reducer_unknown w st action :
  val_in_heap (heap w) action -> non_nullish action = true ->
  recognized_type (read_prop (heap w) action "type") = false ->
  exists r w', reducer st action w = (Normal r, w')
    /\ heap_preserved (heap w) (heap w')
    /\ (st <> VUndef -> r = st /\ w' = w).
Proof.
  intros Hact Hnn Hrec. unfold recognized_type in Hrec.
  repeat rewrite Bool.orb_false_iff in Hrec.
  destruct Hrec as [[[[E1 E2] E3] E4] E5].
  remember (read_prop (heap w) action "type") as ty eqn:Hty.
  destruct st; unfold reducer; unfold bind, ret, alloc; simpl;
    [ name_fresh; rewrite get_prop_normal by exact Hnn; simpl;
      rewrite (read_prop_preserved (heap w)) by (exact Hact || preserved)
    | rewrite get_prop_normal by exact Hnn; simpl .. ];
    rewrite <- Hty, E1, E2, E3, E4, E5;
    (eexists _, _; split; [reflexivity|]); simpl;
    (split; [preserved | try congruence]).
  all: intros _; split; reflexivity.
Qed.

Lemma reducer_payload_nullish w st action :
  val_in_heap (heap w) st -> val_in_heap (heap w) action -> non_nullish action = true ->
  payload_type (read_prop (heap w) action "type") = true ->
  non_nullish (read_prop (heap w) action "payload") = false ->
  fst (reducer st action w) = TypeError
  /\ heap_preserved (heap w) (heap (snd (reducer st action w))).
Proof.
  intros Hst Hact Hact_nn Hpt Hpn.
  unfold payload_type in Hpt. repeat rewrite Bool.orb_true_iff in Hpt.
  destruct (read_prop (heap w) action "payload") eqn:Hpay; try discriminate Hpn.
  all: destruct Hpt as [[Hty|Hty]|Hty]; apply strict_eq_str in Hty.
  all: open_state; unfold reducer; run_sym.
  all: split; [reflexivity|preserved].
Qed.

Lemma recognized_type_cases v :
  recognized_type v = true ->
  v = VStr GRAPH_SIZE_SET \/ v = VStr GRAPH_SELECTION_RECT_SET
  \/ v = VStr GRAPH_SELECTION_RECT_CLEAR \/ v = VStr VIEWPORT_SET
  \/ v = VStr VIEWPORT_RESET.
Proof.
  unfold recognized_type. intros H. repeat rewrite Bool.orb_true_iff in H.
  destruct H as [[[[H|H]|H]|H]|H]; apply strict_eq_str in H; tauto.
Qed.

Lemma reducer_nullish_action w st action :
  non_nullish action = false ->
  fst (reducer st action w) = TypeError
  /\ heap_preserved (heap w) (heap (snd (reducer st action w))).
Proof.
  intros H. destruct action; try discriminate H;
    destruct st; unfold reducer; run_sym; (split; [reflexivity|preserved]).
Qed.

Lemma get_prop_obj w l o k :
  heap w !! l = Some o -> get_prop (VObj l) k w = (Normal (lookup_prop o k), w).
Proof. intros H. unfold get_prop. simpl. rewrite H. reflexivity. Qed.

(** ** C2: the transition table *)

(** C2.  On the empty state, a set-container-size action carrying
    {width: 100, height: 50} yields {graphSize: {width: 100, height: 50}};
    a clear-selection-rect action yields a state whose selectionRect is
    null (absent); a viewport-reset action yields a state whose viewport is
    null (absent); an action whose type is none of the five recognised
    ones returns the input state itself and leaves the world untouched. *)
Theorem reducer_transition_table :
  (forall (w : world) (l la lp : loc) (ao po : obj),
     heap w !! l = Some ([] : obj) -> heap w !! la = Some ao -> heap w !! lp = Some po ->
     lookup_prop ao "type" = VStr GRAPH_SIZE_SET -> lookup_prop ao "payload" = VObj lp ->
     lookup_prop po "width" = VNum 100 -> lookup_prop po "height" = VNum 50 ->
     exists (r g : loc) (w' : world), reducer (VObj l) (VObj la) w = (Normal (VObj r), w')
       /\ heap w' !! r = Some ([("graphSize", VObj g)] : obj)
       /\ heap w' !! g = Some ([("width", VNum 100); ("height", VNum 50)] : obj))
  /\ (forall (w : world) (st action : val),
        val_in_heap (heap w) st -> val_in_heap (heap w) action ->
        non_nullish action = true ->
        read_prop (heap w) action "type" = VStr GRAPH_SELECTION_RECT_CLEAR ->
        exists (r : val) (w' : world), reducer st action w = (Normal r, w')
          /\ get_prop r "selectionRect" w' = (Normal VNull, w'))
  /\ (forall (w : world) (st action : val),
        val_in_heap (heap w) st -> val_in_heap (heap w) action ->
        non_nullish action = true ->
        read_prop (heap w) action "type" = VStr VIEWPORT_RESET ->
        exists (r : val) (w' : world), reducer st action w = (Normal r, w')
          /\ get_prop r "viewport" w' = (Normal VNull, w'))
  /\ (forall (w : world) (st action : val),
        st <> VUndef -> val_in_heap (heap w) action -> non_nullish action = true ->
        recognized_type (read_prop (heap w) action "type") = false ->
        reducer st action w = (Normal st, w)).
Proof.
  split; [|split; [|split]].
  - intros w l la lp ao po Hl Hla Hlp Hty Hpay Hw Hh.
    assert (Ht : read_prop (heap w) (VObj la) "type" = VStr GRAPH_SIZE_SET)
      by (simpl; rewrite Hla; exact Hty).
    assert (Hp : read_prop (heap w) (VObj la) "payload" = VObj lp)
      by (simpl; rewrite Hla; exact Hpay).
    destruct (reducer_graph_size_set w (VObj l) (VObj la) ltac:(simpl; eauto)
                ltac:(simpl; eauto) eq_refl (VObj lp) Ht Hp ltac:(simpl; eauto) eq_refl)
      as (r & g & w' & Hred & Hr & Hg & _).
    exists r, g, w'. split; [exact Hred|]. split.
    + rewrite Hr. unfold spread_copy, spread_props. rewrite Hl. reflexivity.
    + simpl in Hg. rewrite Hlp, Hw, Hh in Hg. exact Hg.
  - intros w st action Hst Hact Hnn Hty.
    destruct (reducer_selection_rect_clear w st action Hst Hact Hnn Hty)
      as (r & w' & Hred & Hr & _).
    exists (VObj r), w'. split; [exact Hred|].
    rewrite (get_prop_obj _ _ _ _ Hr), lookup_prop_set_prop_eq. reflexivity.
  - intros w st action Hst Hact Hnn Hty.
    destruct (reducer_viewport_reset w st action Hst Hact Hnn Hty)
      as (r & w' & Hred & Hr & _).
    exists (VObj r), w'. split; [exact Hred|].
    rewrite (get_prop_obj _ _ _ _ Hr), lookup_prop_set_prop_eq. reflexivity.
  - intros w st action Hst Hact Hnn Hrec.
    destruct (reducer_unknown w st action Hact Hnn Hrec) as (r & w' & Hred & _ & Hid).
    destruct (Hid Hst) as [-> ->]. exact Hred.
Qed.

(** ** C8: no mutation, and the other fields are carried over *)

Lemma frame_read (w' : world) (r : loc) h st (k target : string) (v : val) :
  heap w' !! r = Some (set_prop (spread_copy h st) target v) ->
  keys_unique (spread_props h st) -> k <> target ->
  read_prop (heap w') (VObj r) k = lookup_prop (spread_props h st) k.
Proof.
  intros Hr Hu Hk. simpl. rewrite Hr.
  rewrite lookup_prop_set_prop_ne by congruence.
  apply lookup_spread_copy, Hu.
Qed.

(** C8.  Whatever the state and the action, the reducer changes no object
    that existed before the call (the input state included); when it
    returns a new state for a recognised action, every field of that
    state other than the one the action targets (graphSize,
    selectionRect or viewport) is the field of the input state. *)
Theorem reducer_frame (w : world) (st action : val) :
  heap_closed (heap w) -> val_in_heap (heap w) st -> val_in_heap (heap w) action ->
  heap_preserved (heap w) (heap (snd (reducer st action w)))
  /\ (forall (r : loc) (w' : world),
        reducer st action w = (Normal (VObj r), w') ->
        recognized_type (read_prop (heap w) action "type") = true ->
        keys_unique (spread_props (heap w) st) ->
        forall k, k <> target_field (read_prop (heap w) action "type") ->
        read_prop (heap w') (VObj r) k = lookup_prop (spread_props (heap w) st) k).
Proof.
  intros Hc Hst Hact.
  destruct (non_nullish action) eqn:Hnn.
  2: { destruct (reducer_nullish_action w st action Hnn) as [Hth Hpres].
       split; [exact Hpres|]. intros r w' Hred. rewrite Hred in Hth. discriminate. }
  pose proof (read_prop_in_heap (heap w) action "payload" Hc Hact) as Hpin.
  destruct (recognized_type (read_prop (heap w) action "type")) eqn:Hrec.
  2: { destruct (reducer_unknown w st action Hact Hnn Hrec) as (r & w' & Hred & Hpres & _).
       rewrite Hred. split; [exact Hpres|]. intros r' w'' _ Habs. congruence. }
  destruct (recognized_type_cases _ Hrec) as [Hty|[Hty|[Hty|[Hty|Hty]]]];
    rewrite Hty; simpl.
  - destruct (non_nullish (read_prop (heap w) action "payload")) eqn:Hpn.
    + destruct (reducer_graph_size_set w st action Hst Hact Hnn _ Hty eq_refl Hpin Hpn)
        as (r & g & w' & Hred & Hr & _ & Hpres).
      rewrite Hred. split; [exact Hpres|].
      intros r' w'' Heq _ Hu k Hk. inversion Heq; subst.
      eapply frame_read; eauto.
    + assert (Hpt : payload_type (read_prop (heap w) action "type") = true)
        by (rewrite Hty; reflexivity).
      destruct (reducer_payload_nullish w st action Hst Hact Hnn Hpt Hpn) as [Hth Hpres].
      split; [exact Hpres|]. intros r w' Hred. rewrite Hred in Hth. discriminate.
  - destruct (non_nullish (read_prop (heap w) action "payload")) eqn:Hpn.
    + destruct (reducer_selection_rect_set w st action Hst Hact Hnn _ Hty eq_refl Hpin Hpn)
        as (r & g & w' & Hred & Hr & _ & Hpres).
      rewrite Hred. split; [exact Hpres|].
      intros r' w'' Heq _ Hu k Hk. inversion Heq; subst.
      eapply frame_read; eauto.
    + assert (Hpt : payload_type (read_prop (heap w) action "type") = true)
        by (rewrite Hty; reflexivity).
      destruct (reducer_payload_nullish w st action Hst Hact Hnn Hpt Hpn) as [Hth Hpres].
      split; [exact Hpres|]. intros r w' Hred. rewrite Hred in Hth. discriminate.
  - destruct (reducer_selection_rect_clear w st action Hst Hact Hnn Hty)
      as (r & w' & Hred & Hr & Hpres).
    rewrite Hred. split; [exact Hpres|].
    intros r' w'' Heq _ Hu k Hk. inversion Heq; subst.
    eapply frame_read; eauto.
  - destruct (non_nullish (read_prop (heap w) action "payload")) eqn:Hpn.
    + destruct (reducer_viewport_set w st action Hst Hact Hnn _ Hty eq_refl Hpin Hpn)
        as (r & g & w' & Hred & Hr & _ & Hpres).
      rewrite Hred. split; [exact Hpres|].
      intros r' w'' Heq _ Hu k Hk. inversion Heq; subst.
      eapply frame_read; eauto.
    + assert (Hpt : payload_type (read_prop (heap w) action "type") = true)
        by (rewrite Hty; reflexivity).
      destruct (reducer_payload_nullish w st action Hst Hact Hnn Hpt Hpn) as [Hth Hpres].
      split; [exact Hpres|]. intros r w' Hred. rewrite Hred in Hth. discriminate.
  - destruct (reducer_viewport_reset w st action Hst Hact Hnn Hty)
      as (r & w' & Hred & Hr & Hpres).
    rewrite Hred. split; [exact Hpres|].
    intros r' w'' Heq _ Hu k Hk. inversion Heq; subst.
    eapply frame_read; eauto.
Qed.

(** ** Action creators *)

Section ActionCreators.

Variables (w : world) (arg : val).
Hypothesis Harg : val_in_heap (heap w) arg.
Hypothesis Harg_nn : non_nullish arg = true.

Ltac finish_creator :=
  eexists _, _, _; split; [reflexivity|]; simpl;
  split; [simplify_map_eq; reflexivity|];
  split; [simplify_map_eq; reflexivity|]; preserved.

Lemma setViewport_spec :
  exists (a p : loc) (w' : world), setViewport arg w = (Normal (VObj a), w')
    /\ heap w' !! a = Some [("type", VStr VIEWPORT_SET); ("payload", VObj p)]
    /\ heap w' !! p = Some [("startDate", read_prop (heap w) arg "startDate");
                            ("endDate", read_prop (heap w) arg "endDate")]
    /\ heap_preserved (heap w) (heap w').
Proof. unfold setViewport. run_sym. finish_creator. Qed.

Lemma setSelectionRect_spec :
  exists (a p : loc) (w' : world), setSelectionRect arg w = (Normal (VObj a), w')
    /\ heap w' !! a = Some [("type", VStr GRAPH_SELECTION_RECT_SET); ("payload", VObj p)]
    /\ heap w' !! p = Some [("top", read_prop (heap w) arg "top");
                            ("left", read_prop (heap w) arg "left");
                            ("bottom", read_prop (heap w) arg "bottom");
                            ("right", read_prop (heap w) arg "right")]
    /\ heap_preserved (heap w) (heap w').
Proof. unfold setSelectionRect. run_sym. finish_creator. Qed.

Lemma setContainerSize_spec :
  exists (a p : loc) (w' : world), setContainerSize arg w = (Normal (VObj a), w')
    /\ heap w' !! a = Some [("type", VStr GRAPH_SIZE_SET); ("payload", VObj p)]
    /\ heap w' !! p = Some [("width", read_prop (heap w) arg "width");
                            ("height", read_prop (heap w) arg "height")]
    /\ heap_preserved (heap w) (heap w').
Proof. unfold setContainerSize. run_sym. finish_creator. Qed.

End ActionCreators.

(** ** Concrete heaps *)

Lemma heap_closed_b_sound h : heap_closed_b h = true -> heap_closed h.
Proof.
  unfold heap_closed_b, heap_closed. intros Hb l o k v Hl Hin.
  apply forallb_forall with (x := (l, o)) in Hb;
    [|apply list_elem_of_In, elem_of_map_to_list, Hl].
  apply forallb_forall with (x := (k, v)) in Hb; [|exact Hin].
  destruct v; simpl in *; try exact I.
  apply bool_decide_eq_true in Hb. exact Hb.
Qed.

Lemma demo_heap_closed : heap_closed demo_heap.
Proof. apply heap_closed_b_sound. vm_compute. reflexivity. Qed.

(** ** C1: the chart position rectangles *)

(** C1.  On a container size object whose width and height are the
    numbers [wd] and [ht], the result function of the chart position
    selector builds, as a new object and without changing any existing
    one, the rectangle {x: 0, y: 0, width: wd, height: 0.8 × ht} for
    "main", {x: 0, y: 0.8 × ht, width: wd, height: 0.2 × ht} for "panner"
    and {x: 0.9 × wd, y: 0, width: 0.1 × wd, height: 0.8 × ht} for
    "lithography", each product rounded to a double. *)
Theorem chart_position_rectangles (s2n : string -> float) (w : world) (l : loc)
    (o : obj) (wd ht : float) :
  heap w !! l = Some o -> lookup_prop o "width" = VNum wd ->
  lookup_prop o "height" = VNum ht ->
  (exists r w', chart_position_result s2n "main" (VObj l) w = (Normal (VObj r), w')
     /\ heap w' !! r = Some (rect 0 0 wd (0.8 * ht))
     /\ heap_preserved (heap w) (heap w'))
  /\ (exists r w', chart_position_result s2n "panner" (VObj l) w = (Normal (VObj r), w')
     /\ heap w' !! r = Some (rect 0 (0.8 * ht) wd (0.2 * ht))
     /\ heap_preserved (heap w) (heap w'))
  /\ (exists r w', chart_position_result s2n "lithography" (VObj l) w = (Normal (VObj r), w')
     /\ heap w' !! r = Some (rect (0.9 * wd) 0 (0.1 * wd) (0.8 * ht))
     /\ heap_preserved (heap w) (heap w')).
Proof.
  intros Hl Hw Hh. split; [|split];
    [eapply main_position | eapply panner_position | eapply lithography_position];
    eassumption.
Qed.

Lemma chart_position_rectangles_witness :
  exists r w', chart_position_result nan_of_string "lithography" (VObj 1%positive) size_world
                 = (Normal (VObj r), w')
    /\ heap w' !! r = Some (rect (0.9 * 100) 0 (0.1 * 100) (0.8 * 3)).
Proof.
  destruct (chart_position_rectangles nan_of_string size_world 1%positive
              [("width", VNum 100); ("height", VNum 3)] 100 3 eq_refl eq_refl eq_refl)
    as [_ [_ (r & w' & H1 & H2 & _)]].
  exists r, w'. split; assumption.
Defined.

(** ** C7: the scales *)

(** C7 (modelled from the spec).  The scale [getScaleX([a, b], size)]
    has domain [[a, b]] and range [[0, size.width]]; [getScaleY([a, b],
    size)] has domain [[a, b]] and range [[0, size.height]]. *)
Theorem scales_domain_range (a b : float) (size : container_size) :
  scale_domain (getScaleX (a, b) size) = (a, b)
  /\ scale_range (getScaleX (a, b) size) = (0%float, cs_width size)
  /\ scale_domain (getScaleY (a, b) size) = (a, b)
  /\ scale_range (getScaleY (a, b) size) = (0%float, cs_height size).
Proof. repeat split. Qed.

(** ** Witnesses of C2 and C8 *)

Lemma reducer_transition_table_witness :
  (exists (r g : loc) (w' : world),
     reducer (VObj 1%positive) (VObj 2%positive) demo_world = (Normal (VObj r), w')
     /\ heap w' !! r = Some ([("graphSize", VObj g)] : obj)
     /\ heap w' !! g = Some ([("width", VNum 100); ("height", VNum 50)] : obj))
  /\ (exists (r : val) (w' : world),
        reducer (VObj 11%positive) (VObj 15%positive) demo_world = (Normal r, w')
        /\ get_prop r "selectionRect" w' = (Normal VNull, w'))
  /\ (exists (r : val) (w' : world),
        reducer (VObj 11%positive) (VObj 16%positive) demo_world = (Normal r, w')
        /\ get_prop r "viewport" w' = (Normal VNull, w'))
  /\ reducer (VObj 11%positive) (VObj 4%positive) demo_world
     = (Normal (VObj 11%positive), demo_world).
Proof.
  destruct reducer_transition_table as (H1 & H2 & H3 & H4).
  split; [|split; [|split]].
  - apply (H1 demo_world 1%positive 2%positive 3%positive
             [("type", VStr GRAPH_SIZE_SET); ("payload", VObj 3%positive)]
             [("width", VNum 100); ("height", VNum 50)]); reflexivity.
  - apply H2; (reflexivity || (simpl; eexists; reflexivity)).
  - apply H3; (reflexivity || (simpl; eexists; reflexivity)).
  - apply H4; [discriminate | simpl; eexists; reflexivity | reflexivity | reflexivity].
Defined.

Lemma reducer_frame_witness :
  exists (r : loc) (w' : world),
    reducer (VObj 11%positive) (VObj 15%positive) demo_world = (Normal (VObj r), w')
    /\ read_prop (heap w') (VObj r) "graphSize" = VObj 9%positive.
Proof.
  destruct (reducer_frame demo_world (VObj 11%positive) (VObj 15%positive)
              demo_heap_closed (ex_intro _ _ eq_refl) (ex_intro _ _ eq_refl))
    as [_ Hframe].
  destruct (reducer (VObj 11%positive) (VObj 15%positive) demo_world) as [c w'] eqn:E.
  pose proof E as E'. vm_compute in E'.
  destruct c as [v|]; [|discriminate E'].
  injection E' as Ev _. subst v.
  eexists _, w'. split; [reflexivity|].
  rewrite (Hframe _ w' eq_refl eq_refl); [reflexivity| |].
  - unfold keys_unique. vm_compute. repeat constructor. apply not_elem_of_nil.
  - vm_compute. discriminate.
Defined.

(** ** C10: round trips *)

Lemma val_in_heap_preserved h h' v :
  val_in_heap h v -> heap_preserved h h' -> val_in_heap h' v.
Proof.
  intros Hv Hp. destruct v; simpl in *; try exact I.
  destruct Hv as [o Ho]. exists o. apply Hp, Ho.
Qed.

Lemma read_prop_obj h l o k : h !! l = Some o -> read_prop h (VObj l) k = lookup_prop o k.
Proof. intros H. simpl. rewrite H. reflexivity. Qed.

(** C10.  Round trips through the store.  The action [setViewport(arg)]
    applied by the reducer to any state gives a state [s'] such that, in
    any later world that keeps the objects, [getViewport] on a global
    state whose layout slice is [s'] returns an object holding exactly
    {startDate, endDate} of [arg]; likewise [setSelectionRect] and
    [getSelectionRect] with {top, left, bottom, right}.  The three action
    creators with a payload emit [{type, payload}] whose payload holds
    exactly the named fields of their argument, no other. *)
Theorem action_round_trip :
  (forall (w : world) (st arg : val),
     val_in_heap (heap w) st -> non_nullish arg = true ->
     exists (a : loc) (w1 : world) (s' : val) (w2 : world),
       setViewport arg w = (Normal (VObj a), w1)
       /\ reducer st (VObj a) w1 = (Normal s', w2)
       /\ forall (w3 : world) (gl : loc) (go : obj),
            heap_preserved (heap w2) (heap w3) -> heap w3 !! gl = Some go ->
            lookup_prop go MOUNT_POINT = s' ->
            exists p : loc, getViewport (VObj gl) w3 = (Normal (VObj p), w3)
              /\ heap w3 !! p = Some ([("startDate", read_prop (heap w) arg "startDate");
                                       ("endDate", read_prop (heap w) arg "endDate")] : obj))
  /\ (forall (w : world) (st arg : val),
     val_in_heap (heap w) st -> non_nullish arg = true ->
     exists (a : loc) (w1 : world) (s' : val) (w2 : world),
       setSelectionRect arg w = (Normal (VObj a), w1)
       /\ reducer st (VObj a) w1 = (Normal s', w2)
       /\ forall (w3 : world) (gl : loc) (go : obj),
            heap_preserved (heap w2) (heap w3) -> heap w3 !! gl = Some go ->
            lookup_prop go MOUNT_POINT = s' ->
            exists p : loc, getSelectionRect (VObj gl) w3 = (Normal (VObj p), w3)
              /\ heap w3 !! p = Some ([("top", read_prop (heap w) arg "top");
                                       ("left", read_prop (heap w) arg "left");
                                       ("bottom", read_prop (heap w) arg "bottom");
                                       ("right", read_prop (heap w) arg "right")] : obj))
  /\ (forall (w : world) (arg : val),
     non_nullish arg = true ->
     (exists (a p : loc) (w' : world), setViewport arg w = (Normal (VObj a), w')
       /\ heap w' !! a = Some ([("type", VStr VIEWPORT_SET); ("payload", VObj p)] : obj)
       /\ heap w' !! p = Some ([("startDate", read_prop (heap w) arg "startDate");
                                ("endDate", read_prop (heap w) arg "endDate")] : obj))
     /\ (exists (a p : loc) (w' : world), setSelectionRect arg w = (Normal (VObj a), w')
       /\ heap w' !! a = Some ([("type", VStr GRAPH_SELECTION_RECT_SET); ("payload", VObj p)] : obj)
       /\ heap w' !! p = Some ([("top", read_prop (heap w) arg "top");
                                ("left", read_prop (heap w) arg "left");
                                ("bottom", read_prop (heap w) arg "bottom");
                                ("right", read_prop (heap w) arg "right")] : obj))
     /\ (exists (a p : loc) (w' : world), setContainerSize arg w = (Normal (VObj a), w')
       /\ heap w' !! a = Some ([("type", VStr GRAPH_SIZE_SET); ("payload", VObj p)] : obj)
       /\ heap w' !! p = Some ([("width", read_prop (heap w) arg "width");
                                ("height", read_prop (heap w) arg "height")] : obj))).
Proof.
  split; [|split].
  - intros w st arg Hst Hnn.
    destruct (setViewport_spec w arg Hnn) as (a & p & w1 & Hc & Ha & Hp & Hpres1).
    assert (Hty : read_prop (heap w1) (VObj a) "type" = VStr VIEWPORT_SET)
      by (rewrite (read_prop_obj _ _ _ _ Ha); reflexivity).
    assert (Hpay : read_prop (heap w1) (VObj a) "payload" = VObj p)
      by (rewrite (read_prop_obj _ _ _ _ Ha); reflexivity).
    destruct (reducer_viewport_set w1 st (VObj a) (val_in_heap_preserved _ _ _ Hst Hpres1)
                (ex_intro _ _ Ha) eq_refl (VObj p) Hty Hpay (ex_intro _ _ Hp) eq_refl)
      as (r & g & w2 & Hred & Hr & Hg & _).
    exists a, w1, (VObj r), w2. split; [exact Hc|]. split; [exact Hred|].
    intros w3 gl go Hp3 Hgl Hmp. exists g.
    unfold getViewport, bind. rewrite (get_prop_obj _ _ _ _ Hgl), Hmp.
    rewrite (get_prop_obj _ _ _ _ (Hp3 _ _ Hr)), lookup_prop_set_prop_eq.
    split; [reflexivity|].
    rewrite (Hp3 _ _ Hg), !(read_prop_obj _ _ _ _ Hp). reflexivity.
  - intros w st arg Hst Hnn.
    destruct (setSelectionRect_spec w arg Hnn) as (a & p & w1 & Hc & Ha & Hp & Hpres1).
    assert (Hty : read_prop (heap w1) (VObj a) "type" = VStr GRAPH_SELECTION_RECT_SET)
      by (rewrite (read_prop_obj _ _ _ _ Ha); reflexivity).
    assert (Hpay : read_prop (heap w1) (VObj a) "payload" = VObj p)
      by (rewrite (read_prop_obj _ _ _ _ Ha); reflexivity).
    destruct (reducer_selection_rect_set w1 st (VObj a) (val_in_heap_preserved _ _ _ Hst Hpres1)
                (ex_intro _ _ Ha) eq_refl (VObj p) Hty Hpay (ex_intro _ _ Hp) eq_refl)
      as (r & g & w2 & Hred & Hr & Hg & _).
    exists a, w1, (VObj r), w2. split; [exact Hc|]. split; [exact Hred|].
    intros w3 gl go Hp3 Hgl Hmp. exists g.
    unfold getSelectionRect, bind. rewrite (get_prop_obj _ _ _ _ Hgl), Hmp.
    rewrite (get_prop_obj _ _ _ _ (Hp3 _ _ Hr)), lookup_prop_set_prop_eq.
    split; [reflexivity|].
    rewrite (Hp3 _ _ Hg), !(read_prop_obj _ _ _ _ Hp). reflexivity.
  - intros w arg Hnn. split; [|split].
    + destruct (setViewport_spec w arg Hnn) as (a & p & w' & H1 & H2 & H3 & _).
      exists a, p, w'. auto.
    + destruct (setSelectionRect_spec w arg Hnn) as (a & p & w' & H1 & H2 & H3 & _).
      exists a, p, w'. auto.
    + destruct (setContainerSize_spec w arg Hnn) as (a & p & w' & H1 & H2 & H3 & _).
      exists a, p, w'. auto.
Qed.

Lemma action_round_trip_witness :
  exists (a : loc) (w1 : world) (s' : val) (w2 : world),
    setViewport (VObj 7%positive) demo_world = (Normal (VObj a), w1)
    /\ reducer (VObj 1%positive) (VObj a) w1 = (Normal s', w2)
    /\ forall (w3 : world) (gl : loc) (go : obj),
         heap_preserved (heap w2) (heap w3) -> heap w3 !! gl = Some go ->
         lookup_prop go MOUNT_POINT = s' ->
         exists p : loc, getViewport (VObj gl) w3 = (Normal (VObj p), w3)
           /\ heap w3 !! p = Some ([("startDate", VStr "2018-01-01");
                                    ("endDate", VStr "2018-06-30")] : obj).
Proof.
  destruct action_round_trip as [H _].
  exact (H demo_world (VObj 1%positive) (VObj 7%positive)
           (ex_intro _ _ eq_refl) eq_refl).
Defined.

(** ** C3 *)





(** ** C4 *)

(** C4 refuted: [getContainerSize({})] throws, the layout slice being
    undefined. *)
Lemma getContainerSize_empty_state_throws :
  getContainerSize (VObj 1%positive) demo_world = (TypeError, demo_world).
Proof. vm_compute. reflexivity. Qed.

(** C4 (amended).  [getContainerSize(state)] throws a TypeError when the
    state or its layout slice [state[MOUNT_POINT]] is undefined or null
    (so on the empty state [{}]); otherwise it returns the slice's
    [graphSize] when that is truthy, and a new object {width: 0,
    height: 0} when it is falsy (absent, undefined, null, 0, ...). *)
Theorem getContainerSize_cases (w : world) (st : val) :
  (non_nullish st = false -> getContainerSize st w = (TypeError, w))
  /\ (non_nullish st = true -> non_nullish (read_prop (heap w) st MOUNT_POINT) = false ->
      getContainerSize st w = (TypeError, w))
  /\ (non_nullish st = true -> non_nullish (read_prop (heap w) st MOUNT_POINT) = true ->
      truthy (read_prop (heap w) (read_prop (heap w) st MOUNT_POINT) "graphSize") = true ->
      getContainerSize st w
      = (Normal (read_prop (heap w) (read_prop (heap w) st MOUNT_POINT) "graphSize"), w))
  /\ (non_nullish st = true -> non_nullish (read_prop (heap w) st MOUNT_POINT) = true ->
      truthy (read_prop (heap w) (read_prop (heap w) st MOUNT_POINT) "graphSize") = false ->
      exists (l : loc) (w' : world), getContainerSize st w = (Normal (VObj l), w')
        /\ heap w !! l = None
        /\ heap w' !! l = Some ([("width", VNum 0); ("height", VNum 0)] : obj)
        /\ heap_preserved (heap w) (heap w')).
Proof.
  split; [|split; [|split]].
  - intros H. destruct st; try discriminate H; reflexivity.
  - intros Hs Hsl. unfold getContainerSize, bind.
    rewrite (get_prop_normal _ _ _ Hs).
    destruct (read_prop (heap w) st MOUNT_POINT); try discriminate Hsl; reflexivity.
  - intros Hs Hsl Ht. unfold getContainerSize, bind.
    rewrite (get_prop_normal _ _ _ Hs), (get_prop_normal _ _ _ Hsl). rewrite Ht.
    reflexivity.
  - intros Hs Hsl Ht. unfold getContainerSize, bind.
    rewrite (get_prop_normal _ _ _ Hs), (get_prop_normal _ _ _ Hsl). rewrite Ht.
    run. eexists _, _. split; [reflexivity|]. split; [assumption|].
    split; [simpl; simp_map; reflexivity|]. preserved.
Qed.

Lemma getContainerSize_cases_witness :
  exists (l : loc) (w' : world), getContainerSize (VObj 6%positive) demo_world = (Normal (VObj l), w')
    /\ heap demo_world !! l = None
    /\ heap w' !! l = Some ([("width", VNum 0); ("height", VNum 0)] : obj)
    /\ heap_preserved (heap demo_world) (heap w').
Proof.
  destruct (getContainerSize_cases demo_world (VObj 6%positive)) as (_ & _ & _ & H4).
  apply H4; reflexivity.
Defined.

(** ** Computations that only touch the heap *)

Lemma ret_frame {A} (a : A) : sel_frame (ret a).
Proof. intros w. split; reflexivity. Qed.

Lemma alloc_frame o : sel_frame (alloc o).
Proof. intros w. split; reflexivity. Qed.

Lemma get_prop_frame v k : sel_frame (get_prop v k).
Proof. intros w. destruct v; split; reflexivity. Qed.

Lemma define_prop_frame l k v : sel_frame (define_prop l k v).
Proof.
  intros w. unfold define_prop, update_obj. destruct (heap w !! l); split; reflexivity.
Qed.

Lemma copy_data_properties_frame l v : sel_frame (copy_data_properties l v).
Proof.
  intros w. unfold copy_data_properties, update_obj. destruct (heap w !! l); split; reflexivity.
Qed.

Lemma bind_frame {A B} (m : M A) (k : A -> M B) :
  sel_frame m -> (forall a, sel_frame (k a)) -> sel_frame (bind m k).
Proof.
  intros Hm Hk w. unfold bind. specialize (Hm w).
  destruct (m w) as [[a|] w'] eqn:E; simpl in *.
  - destruct (Hk a w') as [H1 H2]. destruct Hm as [H3 H4]. split; congruence.
  - exact Hm.
Qed.

Create HintDb frame.
#[local] Hint Resolve ret_frame alloc_frame get_prop_frame define_prop_frame
  copy_data_properties_frame : frame.

Ltac solve_frame :=
  repeat first
    [ apply bind_frame; [solve [auto with frame] | intros ?]
    | match goal with |- sel_frame (if ?b then _ else _) => destruct b end
    | solve [auto with frame] ].

Lemma getContainerSize_frame st : sel_frame (getContainerSize st).
Proof. unfold getContainerSize. solve_frame. Qed.

Lemma chart_position_result_frame s2n ct size :
  sel_frame (chart_position_result s2n ct size).
Proof. unfold chart_position_result. solve_frame. Qed.

(** [getContainerSize] changes no existing object. *)
Lemma getContainerSize_preserved st w :
  heap_preserved (heap w) (heap (snd (getContainerSize st w))).
Proof.
  destruct (non_nullish st) eqn:Hs.
  2: { destruct st; try discriminate Hs; apply heap_preserved_refl. }
  unfold getContainerSize, bind. rewrite (get_prop_normal _ _ _ Hs). simpl.
  destruct (non_nullish (read_prop (heap w) st MOUNT_POINT)) eqn:Hsl.
  2: { destruct (read_prop (heap w) st MOUNT_POINT); try discriminate Hsl;
       apply heap_preserved_refl. }
  rewrite (get_prop_normal _ _ _ Hsl). simpl.
  destruct (truthy _); [apply heap_preserved_refl|].
  run. preserved.
Qed.

Lemma getContainerSize_truthy w st :
  non_nullish st = true -> non_nullish (read_prop (heap w) st MOUNT_POINT) = true ->
  truthy (read_prop (heap w) (read_prop (heap w) st MOUNT_POINT) "graphSize") = true ->
  getContainerSize st w
  = (Normal (read_prop (heap w) (read_prop (heap w) st MOUNT_POINT) "graphSize"), w).
Proof.
  intros Hs Hsl Ht. unfold getContainerSize, bind.
  rewrite (get_prop_normal _ _ _ Hs), (get_prop_normal _ _ _ Hsl). rewrite Ht.
  reflexivity.
Qed.

Lemma getContainerSize_normal w st :
  non_nullish st = true -> non_nullish (read_prop (heap w) st MOUNT_POINT) = true ->
  exists v w', getContainerSize st w = (Normal v, w').
Proof.
  intros Hs Hsl. unfold getContainerSize, bind.
  rewrite (get_prop_normal _ _ _ Hs), (get_prop_normal _ _ _ Hsl).
  destruct (truthy _); [eexists _, _; reflexivity|].
  run. eexists _, _. reflexivity.
Qed.

(** The result function of a selector whose chart type is none of the
    three returns undefined and leaves the world as it is. *)
Lemma chart_position_unknown s2n ct size w :
  ct <> "main" -> ct <> "panner" -> ct <> "lithography" ->
  chart_position_result s2n ct size w = (Normal VUndef, w).
Proof.
  intros H1 H2 H3. unfold chart_position_result.
  apply String.eqb_neq in H1, H2, H3. rewrite H1, H2, H3. reflexivity.
Qed.

(** ** C5 *)

(** C5 refuted: on a container 100 wide and 3 high, the heights of the
    "main" and "panner" rectangles, 2.4000000000000004 and
    0.6000000000000001, do not add up to 3. *)
Lemma main_panner_heights_inexact :
  match chart_position_result nan_of_string "main" (VObj 1%positive) size_world,
        chart_position_result nan_of_string "panner" (VObj 1%positive) size_world with
  | (Normal m, w1), (Normal p, w2) =>
      PrimFloat.eqb (to_number nan_of_string (read_prop (heap w1) m "height")
                     + to_number nan_of_string (read_prop (heap w2) p "height"))%float
                    3%float = false
  | _, _ => False
  end.
Proof. vm_compute. reflexivity. Qed.

(** C5 (amended).  On a size object whose width and height are the
    numbers [wd] and [ht], the "main" rectangle has height 0.8 × ht and
    the "panner" rectangle starts at y equal to that height and has height
    0.2 × ht, each product rounded to a double: the two heights add up to
    the rounded sum of these two doubles, which need not be [ht]. *)
Theorem main_panner_heights (s2n : string -> float) (w : world) (l : loc) (o : obj)
    (wd ht : float) :
  heap w !! l = Some o -> lookup_prop o "width" = VNum wd ->
  lookup_prop o "height" = VNum ht ->
  exists (rm rp : loc) (wm wp : world),
    chart_position_result s2n "main" (VObj l) w = (Normal (VObj rm), wm)
    /\ chart_position_result s2n "panner" (VObj l) w = (Normal (VObj rp), wp)
    /\ read_prop (heap wm) (VObj rm) "height" = VNum (0.8 * ht)
    /\ read_prop (heap wp) (VObj rp) "y" = read_prop (heap wm) (VObj rm) "height"
    /\ read_prop (heap wp) (VObj rp) "height" = VNum (0.2 * ht).
Proof.
  intros Hl Hw Hh.
  destruct (main_position s2n w l o wd ht Hl Hw Hh) as (rm & wm & Hm & Hrm & _).
  destruct (panner_position s2n w l o wd ht Hl Hw Hh) as (rp & wp & Hp & Hrp & _).
  exists rm, rp, wm, wp. split; [exact Hm|]. split; [exact Hp|].
  rewrite (read_prop_obj _ _ _ _ Hrm), !(read_prop_obj _ _ _ _ Hrp).
  repeat split; reflexivity.
Qed.

Lemma main_panner_heights_witness :
  exists (rm rp : loc) (wm wp : world),
    chart_position_result nan_of_string "main" (VObj 1%positive) size_world
      = (Normal (VObj rm), wm)
    /\ chart_position_result nan_of_string "panner" (VObj 1%positive) size_world
      = (Normal (VObj rp), wp)
    /\ read_prop (heap wm) (VObj rm) "height" = VNum (0.8 * 3)
    /\ read_prop (heap wp) (VObj rp) "y" = read_prop (heap wm) (VObj rm) "height"
    /\ read_prop (heap wp) (VObj rp) "height" = VNum (0.2 * 3).
Proof.
  exact (main_panner_heights nan_of_string size_world 1%positive
           [("width", VNum 100); ("height", VNum 3)] 100 3 eq_refl eq_refl eq_refl).
Defined.

(** ** The memo cells of the selectors *)

Lemma alter_fixed {A} (f : A -> A) (l : list A) i x :
  l !! i = Some x -> f x = x -> alter f i l = l.
Proof.
  intros Hl Hf. rewrite (list_alter_ext f id l l i); [apply list_alter_id; reflexivity| |reflexivity].
  intros y Hy. rewrite Hl in Hy. injection Hy as <-. exact Hf.
Qed.

Lemma memo_hit_some cell arg r :
  memo_hit cell arg = Some r -> exists a, cell = Some (a, r).
Proof.
  unfold memo_hit. destruct cell as [[a r']|]; [|discriminate].
  destruct (strict_eq a arg); [|discriminate]. intros H. injection H as <-. eauto.
Qed.

Lemma memoized_result_func_selectors s2n sid size w r w' :
  memoized_result_func s2n sid size w = (Normal r, w') ->
  exists s, selectors w !! sid = Some s
    /\ selectors w' = alter (set_inner size r) sid (selectors w)
    /\ memo_cache w' = memo_cache w.
Proof.
  unfold memoized_result_func, bind, get_selector. cbv beta.
  destruct (selectors w !! sid) as [s|] eqn:Hs; [|discriminate].
  destruct (memo_hit (sel_inner s) size) as [r0|].
  - unfold ret, modify_selector. intros H. injection H as <- <-. eauto.
  - pose proof (chart_position_result_frame s2n (sel_chartType s) size w) as [H1 H2].
    destruct (chart_position_result s2n (sel_chartType s) size w) as [[r0|] w3];
      [|discriminate].
    unfold ret, modify_selector. simpl in *. intros H. injection H as <- <-.
    exists s. simpl. rewrite H1. auto.
Qed.

(** After a call of the selector, its outer cell holds the state and the
    result. *)
Lemma call_selector_outer s2n sid st w r w1 :
  call_selector s2n sid st w = (Normal r, w1) ->
  exists s, selectors w1 !! sid = Some s /\ sel_outer s = Some (st, r).
Proof.
  unfold call_selector, bind, get_selector. cbv beta.
  destruct (selectors w !! sid) as [s|] eqn:Hs; [|discriminate].
  destruct (memo_hit (sel_outer s) st) as [r0|].
  - unfold ret, modify_selector. intros H. injection H as <- <-. simpl.
    rewrite list_lookup_alter_eq, Hs. eexists. split; reflexivity.
  - destruct (getContainerSize st w) as [[size|] w2]; [|discriminate].
    destruct (memoized_result_func s2n sid size w2) as [[r0|] w3] eqn:Hm; [|discriminate].
    destruct (memoized_result_func_selectors _ _ _ _ _ _ Hm) as (s2 & Hs2 & Hsel & _).
    unfold ret, modify_selector. intros H. injection H as <- <-. simpl.
    rewrite list_lookup_alter_eq, Hsel, list_lookup_alter_eq, Hs2.
    eexists. split; reflexivity.
Qed.

(** After a call that missed the outer cell, both cells hold the result. *)
Lemma call_selector_miss s2n sid s st w size w' r w1 :
  selectors w !! sid = Some s -> memo_hit (sel_outer s) st = None ->
  getContainerSize st w = (Normal size, w') ->
  call_selector s2n sid st w = (Normal r, w1) ->
  exists s1, selectors w1 !! sid = Some s1 /\ sel_outer s1 = Some (st, r)
    /\ sel_inner s1 = Some (size, r).
Proof.
  intros Hs Hm Hg. unfold call_selector, bind, get_selector. cbv beta.
  rewrite Hs, Hm, Hg.
  pose proof (getContainerSize_frame st w) as [Hf _]. rewrite Hg in Hf. simpl in Hf.
  destruct (memoized_result_func s2n sid size w') as [[r0|] w3] eqn:Hmr; [|discriminate].
  destruct (memoized_result_func_selectors _ _ _ _ _ _ Hmr) as (s2 & Hs2 & Hsel & _).
  rewrite Hf, Hs in Hs2. injection Hs2 as <-.
  unfold ret, modify_selector. intros H. injection H as <- <-. simpl.
  rewrite list_lookup_alter_eq, Hsel, list_lookup_alter_eq, Hf, Hs.
  eexists. split; [reflexivity|]. split; reflexivity.
Qed.

Lemma chart_position_fresh s2n ct size w :
  ct = "main" \/ ct = "panner" \/ ct = "lithography" -> non_nullish size = true ->
  exists r w', chart_position_result s2n ct size w = (Normal (VObj r), w')
    /\ heap w !! r = None /\ is_Some (heap w' !! r).
Proof.
  intros Hct Hnn.
  destruct Hct as [ -> | [ -> | -> ] ]; unfold chart_position_result; simpl; run_sym;
    (eexists _, _; split; [reflexivity|]; split; [assumption|]; simpl; simp_map; eauto).
Qed.

(** ** C6 *)

(** C6.  For a chart type other than "main", "panner" and
    "lithography", the result function returns undefined on any container
    size, without throwing and without changing the world; and the
    selector for that type, whose memo cells hold nothing but undefined
    (as when it is new), returns undefined on any state whose layout slice
    is present, without throwing. *)
Theorem unknown_chart_type_undefined (s2n : string -> float) (ct : string) :
  ct <> "main" -> ct <> "panner" -> ct <> "lithography" ->
  (forall (size : val) (w : world), chart_position_result s2n ct size w = (Normal VUndef, w))
  /\ (forall (w : world) (sid : nat) (s : selector) (st : val),
        selectors w !! sid = Some s -> sel_chartType s = ct ->
        (forall a r, sel_outer s = Some (a, r) -> r = VUndef) ->
        (forall a r, sel_inner s = Some (a, r) -> r = VUndef) ->
        non_nullish st = true -> non_nullish (read_prop (heap w) st MOUNT_POINT) = true ->
        exists w', call_selector s2n sid st w = (Normal VUndef, w')).
Proof.
  intros H1 H2 H3. split.
  - intros size w. apply chart_position_unknown; assumption.
  - intros w sid s st Hs Hct Ho Hi Hst Hsl.
    unfold call_selector, bind, get_selector. cbv beta. rewrite Hs.
    destruct (memo_hit (sel_outer s) st) as [r|] eqn:Hm.
    + destruct (memo_hit_some _ _ _ Hm) as [a Ha].
      rewrite (Ho _ _ Ha). unfold ret, modify_selector. eexists. reflexivity.
    + destruct (getContainerSize_normal w st Hst Hsl) as (v & w1 & Hg).
      pose proof (getContainerSize_frame st w) as [Hf _]. rewrite Hg in Hf. simpl in Hf.
      rewrite Hg. unfold memoized_result_func, bind, get_selector. cbv beta.
      rewrite Hf, Hs.
      destruct (memo_hit (sel_inner s) v) as [r|] eqn:Hm2.
      * destruct (memo_hit_some _ _ _ Hm2) as [a Ha].
        rewrite (Hi _ _ Ha). unfold ret, modify_selector. eexists. reflexivity.
      * rewrite Hct, chart_position_unknown by assumption.
        unfold ret, modify_selector. eexists. reflexivity.
Qed.

Lemma unknown_chart_type_undefined_witness :
  exists w', call_selector nan_of_string 0 (VObj 13%positive)
               (snd (getChartPosition "scatter" demo_world)) = (Normal VUndef, w').
Proof.
  destruct (unknown_chart_type_undefined nan_of_string "scatter"
              ltac:(discriminate) ltac:(discriminate) ltac:(discriminate)) as [_ H].
  apply (H _ 0 (mk_selector "scatter" None None)); try reflexivity;
    intros a r Habs; discriminate Habs.
Defined.

(** ** C9 *)

(** C9 refuted: two global states whose container sizes are distinct
    objects with the same width and height give two distinct results of
    the "main" selector: the cells compare by reference, not by value. *)
Lemma chart_position_memo_by_reference :
  match getChartPosition "main" demo_world with
  | (Normal sid, w1) =>
      match call_selector nan_of_string sid (VObj 13%positive) w1 with
      | (Normal r1, w2) =>
          match call_selector nan_of_string sid (VObj 14%positive) w2 with
          | (Normal r2, _) => strict_eq r1 r2 = false
          | _ => False
          end
      | _ => False
      end
  | _ => False
  end.
Proof. vm_compute. reflexivity. Qed.

(** C9 (amended).  [getChartPosition(ct)] called again gives the same
    selector.  The selector called again on the same state object returns
    the identical result, changing nothing.  After a call that missed the
    outer cell, a call on any state whose container size is the same
    object returns the identical result.  A call whose state and container
    size are not [===] to the cached ones returns, for "main", "panner"
    and "lithography", a newly allocated object, distinct from every
    object that existed before. *)
Theorem chart_position_memo (s2n : string -> float) :
  (forall (ct : string) (w w1 : world) (sid : nat),
     getChartPosition ct w = (Normal sid, w1) -> getChartPosition ct w1 = (Normal sid, w1))
  /\ (forall (sid : nat) (l : loc) (w w1 : world) (r : val),
        call_selector s2n sid (VObj l) w = (Normal r, w1) ->
        call_selector s2n sid (VObj l) w1 = (Normal r, w1))
  /\ (forall (sid : nat) (s : selector) (st1 st2 : val) (g : loc) (w w1 : world) (r : val),
        selectors w !! sid = Some s -> memo_hit (sel_outer s) st1 = None ->
        non_nullish st1 = true -> non_nullish (read_prop (heap w) st1 MOUNT_POINT) = true ->
        read_prop (heap w) (read_prop (heap w) st1 MOUNT_POINT) "graphSize" = VObj g ->
        call_selector s2n sid st1 w = (Normal r, w1) ->
        non_nullish st2 = true -> non_nullish (read_prop (heap w1) st2 MOUNT_POINT) = true ->
        read_prop (heap w1) (read_prop (heap w1) st2 MOUNT_POINT) "graphSize" = VObj g ->
        exists w2, call_selector s2n sid st2 w1 = (Normal r, w2))
  /\ (forall (sid : nat) (s : selector) (st size : val) (w w1 : world),
        selectors w !! sid = Some s ->
        (sel_chartType s = "main" \/ sel_chartType s = "panner"
         \/ sel_chartType s = "lithography") ->
        memo_hit (sel_outer s) st = None ->
        getContainerSize st w = (Normal size, w1) -> non_nullish size = true ->
        memo_hit (sel_inner s) size = None ->
        exists (r : loc) (w2 : world), call_selector s2n sid st w = (Normal (VObj r), w2)
          /\ heap w !! r = None /\ is_Some (heap w2 !! r)).
Proof.
  split; [|split; [|split]].
  - intros ct w w1 sid. unfold getChartPosition.
    destruct (memo_cache w !! json_stringify_string ct) as [sid0|] eqn:E;
      intros H; injection H as <- <-.
    + rewrite E. reflexivity.
    + simpl. rewrite lookup_insert_eq. reflexivity.
  - intros sid l w w1 r H.
    destruct (call_selector_outer _ _ _ _ _ _ H) as (s & Hs & Ho).
    unfold call_selector, bind, get_selector. cbv beta. rewrite Hs.
    unfold memo_hit. rewrite Ho. simpl. rewrite Pos.eqb_refl.
    unfold ret, modify_selector.
    rewrite (alter_fixed _ _ _ s Hs); [destruct w1; reflexivity|].
    destruct s; simpl in *. rewrite Ho. reflexivity.
  - intros sid s st1 st2 g w w1 r Hs Hm Hn1 Hsl1 Hg1 H Hn2 Hsl2 Hg2.
    pose proof (getContainerSize_truthy w st1 Hn1 Hsl1 ltac:(rewrite Hg1; reflexivity))
      as Hc1.
    rewrite Hg1 in Hc1.
    destruct (call_selector_miss _ _ _ _ _ _ _ _ _ Hs Hm Hc1 H) as (s1 & Hs1 & Ho & Hi).
    unfold call_selector, bind, get_selector. cbv beta. rewrite Hs1.
    unfold memo_hit at 1. rewrite Ho.
    destruct (strict_eq st1 st2).
    + unfold ret, modify_selector. eexists. reflexivity.
    + pose proof (getContainerSize_truthy w1 st2 Hn2 Hsl2 ltac:(rewrite Hg2; reflexivity))
        as Hc2.
      rewrite Hg2 in Hc2. rewrite Hc2.
      unfold memoized_result_func, bind, get_selector. cbv beta. rewrite Hs1.
      unfold memo_hit. rewrite Hi. simpl. rewrite Pos.eqb_refl.
      unfold ret, modify_selector. eexists. reflexivity.
  - intros sid s st size w w1 Hs Hct Hm Hg Hnn Hmi.
    pose proof (getContainerSize_frame st w) as [Hf _]. rewrite Hg in Hf. simpl in Hf.
    pose proof (getContainerSize_preserved st w) as Hp. rewrite Hg in Hp. simpl in Hp.
    destruct (chart_position_fresh s2n (sel_chartType s) size w1 Hct Hnn)
      as (r & w2 & Hc & Hfr & Hin).
    unfold call_selector, bind, get_selector. cbv beta. rewrite Hs, Hm, Hg.
    unfold memoized_result_func, bind, get_selector. cbv beta. rewrite Hf, Hs, Hmi, Hc.
    unfold ret, modify_selector. eexists _, _. split; [reflexivity|]. split.
    + destruct (heap w !! r) as [o|] eqn:E; [|reflexivity].
      rewrite (Hp _ _ E) in Hfr. discriminate.
    + exact Hin.
Qed.

Lemma chart_position_memo_witness :
  exists (r : val) (w1 : world),
    call_selector nan_of_string 0 (VObj 13%positive)
      (snd (getChartPosition "main" demo_world)) = (Normal r, w1)
    /\ call_selector nan_of_string 0 (VObj 13%positive) w1 = (Normal r, w1).
Proof.
  destruct (chart_position_memo nan_of_string) as (_ & Hb & _).
  destruct (call_selector nan_of_string 0 (VObj 13%positive)
              (snd (getChartPosition "main" demo_world))) as [[r|] w1] eqn:E.
  - exists r, w1. split; [reflexivity|]. exact (Hb _ _ _ _ _ E).
  - vm_compute in E. discriminate E.
Defined.

(** ** Throw conditions of the selectors *)









(** ** C3 (amended) *)



(** * Further properties of layout.js *)

(** Extra.  The result function on any container-size object: [main]
    and [panner] copy [size.width] as it is, without conversion, while
    every product converts its operand with ToNumber; an object without
    [width] and [height] thus gives widths undefined and heights NaN. *)
Theorem chart_position_any_size (s2n : string -> float) (w : world) (l : loc) (o : obj) :
  heap w !! l = Some o ->
  (exists (r : loc) (w' : world),
     chart_position_result s2n "main" (VObj l) w = (Normal (VObj r), w')
     /\ heap w' !! r = Some ([("x", VNum 0); ("y", VNum 0); ("width", lookup_prop o "width");
          ("height", VNum (to_number s2n (lookup_prop o "height") * 0.8))] : obj))
  /\ (exists (r : loc) (w' : world),
     chart_position_result s2n "panner" (VObj l) w = (Normal (VObj r), w')
     /\ heap w' !! r = Some ([("x", VNum 0);
          ("y", VNum (to_number s2n (lookup_prop o "height") * 0.8));
          ("width", lookup_prop o "width");
          ("height", VNum (to_number s2n (lookup_prop o "height") * 0.2))] : obj))
  /\ (exists (r : loc) (w' : world),
     chart_position_result s2n "lithography" (VObj l) w = (Normal (VObj r), w')
     /\ heap w' !! r = Some ([("x", VNum (to_number s2n (lookup_prop o "width") * 0.9));
          ("y", VNum 0);
          ("width", VNum (to_number s2n (lookup_prop o "width") * 0.1));
          ("height", VNum (to_number s2n (lookup_prop o "height") * 0.8))] : obj)).
Proof.
  intros Hl. split; [|split]; unfold chart_position_result; simpl; run;
    (eexists _, _; split; [reflexivity|]; simpl; simp_map; reflexivity).
Qed.

Lemma chart_position_any_size_witness :
  exists (r : loc) (w' : world),
     chart_position_result nan_of_string "main" (VObj 1%positive) demo_world
       = (Normal (VObj r), w')
     /\ heap w' !! r = Some ([("x", VNum 0); ("y", VNum 0); ("width", VUndef);
          ("height", VNum (PrimFloat.nan * 0.8))] : obj).
Proof.
  destruct (chart_position_any_size nan_of_string demo_world 1%positive [] eq_refl)
    as [H _]. exact H.
Defined.

(** Extra.  A call of a chart position selector changes no object that
    existed before it: the state and every earlier result stay as they
    were. *)
Lemma chart_position_result_preserved s2n ct size w :
  heap_preserved (heap w) (heap (snd (chart_position_result s2n ct size w))).
Proof.
  unfold chart_position_result.
  destruct (String.eqb ct "main"); [|destruct (String.eqb ct "panner");
    [|destruct (String.eqb ct "lithography"); [|apply heap_preserved_refl]]];
  (destruct (non_nullish size) eqn:Hnn;
   [ run_sym; preserved
   | destruct size; try discriminate Hnn; run; preserved ]).
Qed.

Lemma memoized_result_func_preserved s2n sid size w :
  heap_preserved (heap w) (heap (snd (memoized_result_func s2n sid size w))).
Proof.
  unfold memoized_result_func, bind, get_selector. cbv beta.
  destruct (selectors w !! sid) as [s|]; [|apply heap_preserved_refl].
  destruct (memo_hit (sel_inner s) size); [apply heap_preserved_refl|].
  pose proof (chart_position_result_preserved s2n (sel_chartType s) size w) as Hp.
  destruct (chart_position_result s2n (sel_chartType s) size w) as [[r|] w'];
    exact Hp.
Qed.

Theorem call_selector_preserved (s2n : string -> float) (sid : nat) (st : val) (w : world) :
  heap_preserved (heap w) (heap (snd (call_selector s2n sid st w))).
Proof.
  unfold call_selector, bind, get_selector. cbv beta.
  destruct (selectors w !! sid) as [s|]; [|apply heap_preserved_refl].
  destruct (memo_hit (sel_outer s) st); [apply heap_preserved_refl|].
  pose proof (getContainerSize_preserved st w) as Hg.
  destruct (getContainerSize st w) as [[size|] w1]; [|exact Hg].
  pose proof (memoized_result_func_preserved s2n sid size w1) as Hm.
  destruct (memoized_result_func s2n sid size w1) as [[r|] w2];
    eapply heap_preserved_trans; eauto.
Qed.

(** Extra.  When the layout slice has no truthy [graphSize],
    [getContainerSize] builds a new [{width: 0, height: 0}] on every call;
    a selector whose outer cell misses then misses its inner cell too and
    returns a newly allocated result. *)
Theorem chart_position_recomputes_default (s2n : string -> float) (sid : nat) (s : selector)
    (st : val) (w : world) :
  selectors w !! sid = Some s ->
  (sel_chartType s = "main" \/ sel_chartType s = "panner" \/ sel_chartType s = "lithography") ->
  memo_hit (sel_outer s) st = None ->
  (forall a r, sel_inner s = Some (a, r) -> val_in_heap (heap w) a) ->
  non_nullish st = true -> non_nullish (read_prop (heap w) st MOUNT_POINT) = true ->
  truthy (read_prop (heap w) (read_prop (heap w) st MOUNT_POINT) "graphSize") = false ->
  exists (r : loc) (w' : world), call_selector s2n sid st w = (Normal (VObj r), w')
    /\ heap w !! r = None.
Proof.
  intros Hs Hct Hm Hin Hst Hsl Ht.
  assert (exists l w1, getContainerSize st w = (Normal (VObj l), w1) /\ heap w !! l = None)
    as (l & w1 & Hg & Hl).
  { unfold getContainerSize, bind.
    rewrite (get_prop_normal _ _ _ Hst), (get_prop_normal _ _ _ Hsl). rewrite Ht.
    run. eexists _, _. split; [reflexivity|assumption]. }
  pose proof (getContainerSize_frame st w) as [Hf _]. rewrite Hg in Hf. simpl in Hf.
  pose proof (getContainerSize_preserved st w) as Hp. rewrite Hg in Hp. simpl in Hp.
  assert (Hmi : memo_hit (sel_inner s) (VObj l) = None).
  { unfold memo_hit. destruct (sel_inner s) as [[a r]|] eqn:E; [|reflexivity].
    specialize (Hin a r eq_refl).
    destruct a; simpl; try reflexivity.
    destruct Hin as [o Ho]. destruct (Pos.eqb_spec l0 l) as [->|]; [congruence|reflexivity]. }
  destruct (chart_position_fresh s2n (sel_chartType s) (VObj l) w1 Hct eq_refl)
    as (r & w2 & Hc & Hfr & _).
  unfold call_selector, bind, get_selector. cbv beta. rewrite Hs, Hm, Hg.
  unfold memoized_result_func, bind, get_selector. cbv beta. rewrite Hf, Hs, Hmi, Hc.
  unfold ret, modify_selector. eexists _, _. split; [reflexivity|].
  destruct (heap w !! r) as [o|] eqn:E; [|reflexivity].
  rewrite (Hp _ _ E) in Hfr. discriminate.
Qed.

Lemma chart_position_recomputes_default_witness :
  exists (r : loc) (w' : world),
    call_selector nan_of_string 0 (VObj 6%positive) (snd (getChartPosition "main" demo_world))
      = (Normal (VObj r), w')
    /\ heap demo_world !! r = None.
Proof.
  apply (chart_position_recomputes_default nan_of_string 0 (mk_selector "main" None None)
           (VObj 6%positive) (snd (getChartPosition "main" demo_world)));
    try reflexivity.
  - left. reflexivity.
  - intros a r H. discriminate H.
Defined.

Lemma json_unescape1_escape c r :
  json_unescape1 (String.append (json_escape c) r) = Some (c, r).
Proof. destruct c as [[] [] [] [] [] [] [] []]; reflexivity. Qed.

Lemma string_append_cons c (a b : string) :
  String.append (String c a) b = String c (String.append a b).
Proof. reflexivity. Qed.

Lemma string_append_nil (b : string) : String.append EmptyString b = b.
Proof. reflexivity. Qed.

Lemma string_append_assoc (a b c : string) :
  String.append (String.append a b) c = String.append a (String.append b c).
Proof.
  induction a as [|x a IH]; [reflexivity|].
  rewrite !string_append_cons, IH. reflexivity.
Qed.

Lemma json_quote_chars_inj s1 s2 :
  String.append (json_quote_chars s1) (String quote_char EmptyString)
  = String.append (json_quote_chars s2) (String quote_char EmptyString) -> s1 = s2.
Proof.
  revert s2. induction s1 as [|c1 r1 IH]; intros [|c2 r2]; simpl; try reflexivity;
    rewrite ?string_append_assoc, ?string_append_nil; intros H.
  - apply (f_equal json_unescape1) in H. rewrite json_unescape1_escape in H.
    simpl in H. injection H as _ H. destruct (json_quote_chars r2); discriminate.
  - apply (f_equal json_unescape1) in H. rewrite json_unescape1_escape in H.
    simpl in H. injection H as _ H. destruct (json_quote_chars r1); discriminate.
  - apply (f_equal json_unescape1) in H. rewrite !json_unescape1_escape in H.
    injection H as -> H. f_equal. apply IH, H.
Qed.

Lemma json_stringify_string_inj s1 s2 :
  json_stringify_string s1 = json_stringify_string s2 -> s1 = s2.
Proof. unfold json_stringify_string. intros H. injection H as H. apply json_quote_chars_inj, H. Qed.

Lemma cache_ok_spec w :
  cache_ok w = true <-> forall key sid, memo_cache w !! key = Some sid ->
    exists s, selectors w !! sid = Some s /\ json_stringify_string (sel_chartType s) = key.
Proof.
  unfold cache_ok. rewrite forallb_forall. split.
  - intros H key sid Hk. apply elem_of_map_to_list, list_elem_of_In in Hk.
    specialize (H _ Hk). simpl in H. destruct (selectors w !! sid) as [s|]; [|discriminate].
    exists s. split; [reflexivity|]. apply String.eqb_eq, H.
  - intros H [key sid] Hin. apply list_elem_of_In, elem_of_map_to_list in Hin.
    destruct (H _ _ Hin) as (s & -> & Hj). apply String.eqb_eq, Hj.
Qed.

Lemma getChartPosition_step ct w sid w1 :
  getChartPosition ct w = (Normal sid, w1) ->
  (forall i s, selectors w !! i = Some s -> selectors w1 !! i = Some s)
  /\ (forall k i, memo_cache w !! k = Some i -> memo_cache w1 !! k = Some i)
  /\ memo_cache w1 !! json_stringify_string ct = Some sid
  /\ heap w1 = heap w
  /\ (cache_ok w = true -> cache_ok w1 = true
        /\ exists s, selectors w1 !! sid = Some s /\ sel_chartType s = ct).
Proof.
  unfold getChartPosition. destruct (memo_cache w !! json_stringify_string ct) as [i|] eqn:Hk.
  - intros H. injection H as <- <-. split; [auto|]. split; [auto|]. split; [exact Hk|].
    split; [reflexivity|]. intros Hok. split; [exact Hok|].
    destruct (proj1 (cache_ok_spec w) Hok _ _ Hk) as (s & Hs & Hj).
    exists s. split; [exact Hs|]. apply json_stringify_string_inj, Hj.
  - intros H. injection H as <- <-. simpl.
    split; [intros i s Hs; apply lookup_app_l_Some, Hs|].
    split; [intros k i Hi; rewrite lookup_insert_ne; [exact Hi|congruence]|].
    split; [apply lookup_insert_eq|]. split; [reflexivity|].
    intros Hok. split.
    + apply cache_ok_spec. simpl. intros k i Hi.
      destruct (decide (k = json_stringify_string ct)) as [->|Hne].
      * rewrite lookup_insert_eq in Hi. injection Hi as <-.
        eexists. split; [apply list_lookup_middle; reflexivity|reflexivity].
      * rewrite lookup_insert_ne in Hi by congruence.
        destruct (proj1 (cache_ok_spec w) Hok _ _ Hi) as (s & Hs & Hj).
        exists s. split; [apply lookup_app_l_Some, Hs|exact Hj].
    + eexists. split; [apply list_lookup_middle; reflexivity|reflexivity].
Qed.

Lemma alter_types (f : selector -> selector) sid (l : list selector) :
  (forall s, sel_chartType (f s) = sel_chartType s) ->
  forall i, sel_chartType <$> alter f sid l !! i = sel_chartType <$> l !! i.
Proof.
  intros Hf i. destruct (decide (sid = i)) as [->|Hne].
  - rewrite list_lookup_alter_eq. destruct (l !! i); simpl; [rewrite Hf|]; reflexivity.
  - rewrite list_lookup_alter_ne by exact Hne. reflexivity.
Qed.

Lemma types_kept_trans w1 w2 w3 : types_kept w1 w2 -> types_kept w2 w3 -> types_kept w1 w3.
Proof. intros [H1 H2] [H3 H4]. split; [congruence|]. intros i. rewrite H4. apply H2. Qed.

Lemma sel_frame_types_kept {A} (m : M A) w : sel_frame m -> types_kept w (snd (m w)).
Proof. intros H. destruct (H w) as [H1 H2]. split; [exact H2|]. intros i. rewrite H1. reflexivity. Qed.

Lemma memoized_result_func_types s2n sid size w :
  types_kept w (snd (memoized_result_func s2n sid size w)).
Proof.
  unfold memoized_result_func, bind, get_selector. cbv beta.
  destruct (selectors w !! sid) as [s|]; [|split; reflexivity].
  destruct (memo_hit (sel_inner s) size) as [r|].
  - split; [reflexivity|]. apply alter_types. reflexivity.
  - pose proof (sel_frame_types_kept _ w (chart_position_result_frame s2n (sel_chartType s) size)) as Hk.
    destruct (chart_position_result s2n (sel_chartType s) size w) as [[r|] w1]; [|exact Hk].
    eapply types_kept_trans; [exact Hk|]. split; [reflexivity|]. apply alter_types. reflexivity.
Qed.

Lemma call_selector_types s2n sid st w : types_kept w (snd (call_selector s2n sid st w)).
Proof.
  unfold call_selector, bind, get_selector. cbv beta.
  destruct (selectors w !! sid) as [s|]; [|split; reflexivity].
  destruct (memo_hit (sel_outer s) st) as [r|].
  - split; [reflexivity|]. apply alter_types. reflexivity.
  - pose proof (sel_frame_types_kept _ w (getContainerSize_frame st)) as Hk.
    destruct (getContainerSize st w) as [[size|] w1]; [|exact Hk].
    pose proof (memoized_result_func_types s2n sid size w1) as Hm.
    destruct (memoized_result_func s2n sid size w1) as [[r|] w2];
      [|eapply types_kept_trans; eassumption].
    eapply types_kept_trans; [exact Hk|]. eapply types_kept_trans; [exact Hm|].
    split; [reflexivity|]. apply alter_types. reflexivity.
Qed.

Lemma cache_ok_types_kept w w' : types_kept w w' -> cache_ok w = true -> cache_ok w' = true.
Proof.
  intros [Hc Ht] Hok. apply cache_ok_spec. rewrite Hc. intros k i Hi.
  destruct (proj1 (cache_ok_spec w) Hok _ _ Hi) as (s & Hs & Hj).
  specialize (Ht i). rewrite Hs in Ht.
  destruct (selectors w' !! i) as [s'|]; simpl in Ht; [|discriminate].
  injection Ht as Ht. exists s'. split; [reflexivity|]. rewrite Ht. exact Hj.
Qed.

(** Extra.  Once [getChartPosition(chartType)] has returned the selector
    [sid], its cache entry stays: later calls of [getChartPosition] for any
    type keep it, calls of the selectors leave the cache as it is, and
    [getChartPosition(chartType)] keeps returning [sid] without changing
    the world. *)
Theorem getChartPosition_persistent (s2n : string -> float) (ct : string) (sid : nat) :
  (forall w w1, getChartPosition ct w = (Normal sid, w1) ->
     memo_cache w1 !! json_stringify_string ct = Some sid)
  /\ (forall w, memo_cache w !! json_stringify_string ct = Some sid ->
        getChartPosition ct w = (Normal sid, w)
        /\ (forall ct', memo_cache (snd (getChartPosition ct' w))
                          !! json_stringify_string ct = Some sid)
        /\ (forall sid' st, memo_cache (snd (call_selector s2n sid' st w)) = memo_cache w)).
Proof.
  split.
  - intros w w1 H. apply (getChartPosition_step _ _ _ _ H).
  - intros w Hk. split; [unfold getChartPosition; rewrite Hk; reflexivity|]. split.
    + intros ct'. destruct (getChartPosition ct' w) as [[i|] w1] eqn:E.
      * apply (getChartPosition_step _ _ _ _ E), Hk.
      * unfold getChartPosition in E. cbv beta zeta in E. destruct (memo_cache w !! json_stringify_string ct'); discriminate.
    + intros sid' st. apply call_selector_types.
Qed.

Lemma getChartPosition_persistent_witness :
  exists w1, getChartPosition "main" demo_world = (Normal 0, w1)
    /\ memo_cache w1 !! json_stringify_string "main" = Some 0
    /\ getChartPosition "main" (snd (getChartPosition "panner" w1)) = (Normal 0, snd (getChartPosition "panner" w1)).
Proof.
  destruct (getChartPosition_persistent nan_of_string "main" 0) as [H1 H2].
  eexists. split; [reflexivity|].
  assert (Hk : memo_cache (snd (getChartPosition "main" demo_world))
                 !! json_stringify_string "main" = Some 0) by (apply (H1 demo_world); reflexivity).
  split; [exact Hk|].
  apply H2. apply (H2 _ Hk).
Defined.

(** Extra.  Every cache entry names a selector created for the chart type
    whose JSON string is its key: this holds of an empty cache and is kept
    by [getChartPosition] and by the selectors.  From such a world, two
    successive calls of [getChartPosition] return the same selector if and
    only if the chart types are equal, since JSON.stringify is injective on
    strings. *)
Theorem getChartPosition_distinct :
  (forall w, memo_cache w = ∅ -> cache_ok w = true)
  /\ (forall ct w, cache_ok w = true -> cache_ok (snd (getChartPosition ct w)) = true)
  /\ (forall s2n sid st w, cache_ok w = true -> cache_ok (snd (call_selector s2n sid st w)) = true)
  /\ (forall ct1 ct2 w w1 w2 sid1 sid2, cache_ok w = true ->
        getChartPosition ct1 w = (Normal sid1, w1) ->
        getChartPosition ct2 w1 = (Normal sid2, w2) ->
        (sid1 = sid2 <-> ct1 = ct2)).
Proof.
  split; [|split; [|split]].
  - intros w Hw. unfold cache_ok. rewrite Hw, map_to_list_empty. reflexivity.
  - intros ct w Hok. destruct (getChartPosition ct w) as [[i|] w1] eqn:E.
    + apply (getChartPosition_step _ _ _ _ E), Hok.
    + unfold getChartPosition in E. cbv beta zeta in E. destruct (memo_cache w !! json_stringify_string ct); discriminate.
  - intros s2n sid st w. apply cache_ok_types_kept, call_selector_types.
  - intros ct1 ct2 w w1 w2 sid1 sid2 Hok H1 H2.
    destruct (getChartPosition_step _ _ _ _ H1) as (_ & _ & Hk1 & _ & Hs1).
    destruct (Hs1 Hok) as (Hok1 & s1 & Hl1 & Ht1).
    destruct (getChartPosition_step _ _ _ _ H2) as (Hp2 & _ & _ & _ & Hs2).
    destruct (Hs2 Hok1) as (_ & s2 & Hl2 & Ht2).
    split.
    + intros <-. rewrite (Hp2 _ _ Hl1) in Hl2. injection Hl2 as <-. congruence.
    + intros <-. unfold getChartPosition in H2. rewrite Hk1 in H2. congruence.
Qed.

Lemma getChartPosition_distinct_witness :
  fst (getChartPosition "panner" (snd (getChartPosition "main" demo_world))) <> Normal 0
  /\ fst (getChartPosition "main" (snd (getChartPosition "main" demo_world))) = Normal 0.
Proof.
  destruct getChartPosition_distinct as (H0 & _ & _ & H).
  assert (Hok : cache_ok demo_world = true) by reflexivity.
  split.
  - intros E. destruct (getChartPosition "panner" (snd (getChartPosition "main" demo_world)))
      as [c w2] eqn:E2. simpl in E. subst c.
    assert (Hne : "main" <> "panner") by discriminate.
    apply Hne. apply (proj1 (H "main" "panner" demo_world _ w2 0 0 Hok eq_refl E2)). reflexivity.
  - destruct (getChartPosition "main" (snd (getChartPosition "main" demo_world)))
      as [c w2] eqn:E2. simpl.
    destruct c as [i|]; [|vm_compute in E2; discriminate E2].
    f_equal. symmetry. apply (proj2 (H "main" "main" demo_world _ w2 0 i Hok eq_refl E2)).
    reflexivity.
Defined.

Lemma reducer_recognized w st action :
  val_in_heap (heap w) st -> val_in_heap (heap w) action -> non_nullish action = true ->
  recognized_type (read_prop (heap w) action "type") = true ->
  (payload_type (read_prop (heap w) action "type") = true ->
     val_in_heap (heap w) (read_prop (heap w) action "payload")
     /\ non_nullish (read_prop (heap w) action "payload") = true) ->
  exists r v w', reducer st action w = (Normal (VObj r), w')
    /\ heap w' !! r = Some (set_prop (spread_copy (heap w) st)
                              (target_field (read_prop (heap w) action "type")) v)
    /\ (payload_type (read_prop (heap w) action "type") = false -> v = VNull)
    /\ heap_preserved (heap w) (heap w').
Proof.
  intros Hst Hact Hnn Hrec Hpl. unfold recognized_type in Hrec.
  repeat rewrite Bool.orb_true_iff in Hrec.
  destruct Hrec as [[[[E|E]|E]|E]|E]; apply strict_eq_str in E; rewrite E in Hpl |- *.
  - destruct (Hpl eq_refl) as [Hp Hpn].
    destruct (reducer_graph_size_set w st action Hst Hact Hnn _ E eq_refl Hp Hpn)
      as (r & g & w' & H1 & H2 & _ & H4).
    exists r, (VObj g), w'. split; [exact H1|]. split; [exact H2|]. split; [discriminate|exact H4].
  - destruct (Hpl eq_refl) as [Hp Hpn].
    destruct (reducer_selection_rect_set w st action Hst Hact Hnn _ E eq_refl Hp Hpn)
      as (r & g & w' & H1 & H2 & _ & H4).
    exists r, (VObj g), w'. split; [exact H1|]. split; [exact H2|]. split; [discriminate|exact H4].
  - destruct (reducer_selection_rect_clear w st action Hst Hact Hnn E)
      as (r & w' & H1 & H2 & H4).
    exists r, VNull, w'. split; [exact H1|]. split; [exact H2|]. split; [reflexivity|exact H4].
  - destruct (Hpl eq_refl) as [Hp Hpn].
    destruct (reducer_viewport_set w st action Hst Hact Hnn _ E eq_refl Hp Hpn)
      as (r & g & w' & H1 & H2 & _ & H4).
    exists r, (VObj g), w'. split; [exact H1|]. split; [exact H2|]. split; [discriminate|exact H4].
  - destruct (reducer_viewport_reset w st action Hst Hact Hnn E)
      as (r & w' & H1 & H2 & H4).
    exists r, VNull, w'. split; [exact H1|]. split; [exact H2|]. split; [reflexivity|exact H4].
Qed.

Lemma reducer_unknown_undefined w action :
  val_in_heap (heap w) action -> non_nullish action = true ->
  recognized_type (read_prop (heap w) action "type") = false ->
  exists r w', reducer VUndef action w = (Normal (VObj r), w')
    /\ heap w !! r = None /\ heap w' !! r = Some [].
Proof.
  intros Hact Hnn Hrec. unfold recognized_type in Hrec.
  repeat rewrite Bool.orb_false_iff in Hrec.
  destruct Hrec as [[[[E1 E2] E3] E4] E5].
  remember (read_prop (heap w) action "type") as ty eqn:Hty.
  unfold reducer, bind, ret, alloc; simpl.
  name_fresh. rewrite get_prop_normal by exact Hnn. simpl.
  rewrite (read_prop_preserved (heap w)) by (exact Hact || preserved).
  rewrite <- Hty, E1, E2, E3, E4, E5.
  eexists _, _. split; [reflexivity|]. split; [assumption|]. simpl. apply lookup_insert_eq.
Qed.

Lemma reducer_undefined_fresh w action :
  val_in_heap (heap w) action -> non_nullish action = true ->
  recognized_type (read_prop (heap w) action "type") = true ->
  (payload_type (read_prop (heap w) action "type") = true ->
     val_in_heap (heap w) (read_prop (heap w) action "payload")
     /\ non_nullish (read_prop (heap w) action "payload") = true) ->
  exists r w', reducer VUndef action w = (Normal (VObj r), w') /\ heap w !! r = None.
Proof.
  intros Hact Hnn Hrec Hpl.
  destruct (recognized_type_cases _ Hrec) as [E|[E|[E|[E|E]]]]; rewrite E in Hpl;
    [ destruct (Hpl eq_refl) as [Hp Hpn] | destruct (Hpl eq_refl) as [Hp Hpn] | 
    | destruct (Hpl eq_refl) as [Hp Hpn] | ];
    remember (read_prop (heap w) action "payload") as p eqn:Hpay; symmetry in Hpay;
    unfold reducer; run_sym;
    (eexists _, _; split; [reflexivity|]);
    repeat match goal with H : <[_ := _]> _ !! _ = None |- _ => apply lookup_insert_None in H as [H _] end;
    assumption.
Qed.

(** Extra.  With [state] undefined the default parameter [{}] applies: an
    action of an unknown type gives a new empty object, not undefined, and
    a recognised action gives a new object, absent from the heap before
    the call, whose only property is the field it sets (null for a clear
    or a reset). *)
Theorem reducer_default_state (w : world) (action : val) :
  val_in_heap (heap w) action -> non_nullish action = true ->
  (recognized_type (read_prop (heap w) action "type") = false ->
     exists (r : loc) (w' : world), reducer VUndef action w = (Normal (VObj r), w')
       /\ heap w !! r = None /\ heap w' !! r = Some ([] : obj))
  /\ (recognized_type (read_prop (heap w) action "type") = true ->
     (payload_type (read_prop (heap w) action "type") = true ->
        val_in_heap (heap w) (read_prop (heap w) action "payload")
        /\ non_nullish (read_prop (heap w) action "payload") = true) ->
     exists (r : loc) (v : val) (w' : world), reducer VUndef action w = (Normal (VObj r), w')
       /\ heap w !! r = None
       /\ heap w' !! r = Some ([(target_field (read_prop (heap w) action "type"), v)] : obj)
       /\ (payload_type (read_prop (heap w) action "type") = false -> v = VNull)).
Proof.
  intros Hact Hnn. split.
  - apply reducer_unknown_undefined; assumption.
  - intros Hrec Hpl.
    destruct (reducer_recognized w VUndef action I Hact Hnn Hrec Hpl)
      as (r & v & w' & H1 & H2 & H3 & _).
    destruct (reducer_undefined_fresh w action Hact Hnn Hrec Hpl) as (r' & w'' & H1' & Hfr).
    rewrite H1 in H1'. injection H1' as <- _.
    exists r, v, w'. split; [exact H1|]. split; [exact Hfr|]. split; [exact H2|exact H3].
Qed.

Lemma reducer_default_state_witness :
  (exists (r : loc) (w' : world), reducer VUndef (VObj 4%positive) demo_world = (Normal (VObj r), w')
     /\ heap demo_world !! r = None /\ heap w' !! r = Some ([] : obj))
  /\ (exists (r : loc) (v : val) (w' : world),
        reducer VUndef (VObj 15%positive) demo_world = (Normal (VObj r), w')
        /\ heap w' !! r = Some ([("selectionRect", v)] : obj) /\ v = VNull).
Proof.
  split.
  - apply (reducer_default_state demo_world (VObj 4%positive) (ex_intro _ _ eq_refl) eq_refl).
    reflexivity.
  - destruct (proj2 (reducer_default_state demo_world (VObj 15%positive)
                       (ex_intro _ _ eq_refl) eq_refl) eq_refl ltac:(intros H; vm_compute in H; discriminate H))
      as (r & v & w' & H1 & _ & H2 & H3).
    exists r, v, w'. split; [exact H1|]. split; [exact H2|exact (H3 eq_refl)].
Defined.














Lemma resetViewport_spec w :
  exists (a : loc) (w' : world), resetViewport w = (Normal (VObj a), w')
    /\ heap w !! a = None /\ heap w' !! a = Some [("type", VStr VIEWPORT_RESET)]
    /\ heap_preserved (heap w) (heap w').
Proof.
  unfold resetViewport. run_sym. eexists _, _. split; [reflexivity|]. simpl.
  split; [assumption|]. split; [simp_map; reflexivity|]. preserved.
Qed.

Lemma clearSelectionRect_spec w :
  exists (a : loc) (w' : world), clearSelectionRect w = (Normal (VObj a), w')
    /\ heap w !! a = None /\ heap w' !! a = Some [("type", VStr GRAPH_SELECTION_RECT_CLEAR)]
    /\ heap_preserved (heap w) (heap w').
Proof.
  unfold clearSelectionRect. run_sym. eexists _, _. split; [reflexivity|]. simpl.
  split; [assumption|]. split; [simp_map; reflexivity|]. preserved.
Qed.

(** Extra.  [resetViewport()] and [clearSelectionRect()] build a new
    object holding only their type; the reducer applied to it stores
    null, which [getViewport] and [getSelectionRect] then return from any
    global state whose layout slice is the result. *)
Theorem reset_clear_round_trip :
  (forall (w : world) (st : val), val_in_heap (heap w) st ->
     exists (a : loc) (w1 : world) (r : loc) (w2 : world),
       resetViewport w = (Normal (VObj a), w1)
       /\ heap w !! a = None /\ heap w1 !! a = Some ([("type", VStr VIEWPORT_RESET)] : obj)
       /\ reducer st (VObj a) w1 = (Normal (VObj r), w2)
       /\ forall (w3 : world) (gl : loc) (go : obj),
            heap_preserved (heap w2) (heap w3) -> heap w3 !! gl = Some go ->
            lookup_prop go MOUNT_POINT = VObj r ->
            getViewport (VObj gl) w3 = (Normal VNull, w3))
  /\ (forall (w : world) (st : val), val_in_heap (heap w) st ->
     exists (a : loc) (w1 : world) (r : loc) (w2 : world),
       clearSelectionRect w = (Normal (VObj a), w1)
       /\ heap w !! a = None
       /\ heap w1 !! a = Some ([("type", VStr GRAPH_SELECTION_RECT_CLEAR)] : obj)
       /\ reducer st (VObj a) w1 = (Normal (VObj r), w2)
       /\ forall (w3 : world) (gl : loc) (go : obj),
            heap_preserved (heap w2) (heap w3) -> heap w3 !! gl = Some go ->
            lookup_prop go MOUNT_POINT = VObj r ->
            getSelectionRect (VObj gl) w3 = (Normal VNull, w3)).
Proof.
  split.
  - intros w st Hst.
    destruct (resetViewport_spec w) as (a & w1 & Hc & Hfa & Ha & Hp1).
    assert (Hty : read_prop (heap w1) (VObj a) "type" = VStr VIEWPORT_RESET)
      by (rewrite (read_prop_obj _ _ _ _ Ha); reflexivity).
    destruct (reducer_viewport_reset w1 st (VObj a) (val_in_heap_preserved _ _ _ Hst Hp1)
                (ex_intro _ _ Ha) eq_refl Hty) as (r & w2 & Hred & Hr & _).
    exists a, w1, r, w2. split; [exact Hc|]. split; [exact Hfa|]. split; [exact Ha|].
    split; [exact Hred|].
    intros w3 gl go Hp3 Hgl Hmp.
    unfold getViewport, bind. rewrite (get_prop_obj _ _ _ _ Hgl), Hmp.
    rewrite (get_prop_obj _ _ _ _ (Hp3 _ _ Hr)), lookup_prop_set_prop_eq. reflexivity.
  - intros w st Hst.
    destruct (clearSelectionRect_spec w) as (a & w1 & Hc & Hfa & Ha & Hp1).
    assert (Hty : read_prop (heap w1) (VObj a) "type" = VStr GRAPH_SELECTION_RECT_CLEAR)
      by (rewrite (read_prop_obj _ _ _ _ Ha); reflexivity).
    destruct (reducer_selection_rect_clear w1 st (VObj a) (val_in_heap_preserved _ _ _ Hst Hp1)
                (ex_intro _ _ Ha) eq_refl Hty) as (r & w2 & Hred & Hr & _).
    exists a, w1, r, w2. split; [exact Hc|]. split; [exact Hfa|]. split; [exact Ha|].
    split; [exact Hred|].
    intros w3 gl go Hp3 Hgl Hmp.
    unfold getSelectionRect, bind. rewrite (get_prop_obj _ _ _ _ Hgl), Hmp.
    rewrite (get_prop_obj _ _ _ _ (Hp3 _ _ Hr)), lookup_prop_set_prop_eq. reflexivity.
Qed.

Lemma reset_clear_round_trip_witness :
  exists (a : loc) (w1 : world) (r : loc) (w2 : world),
    clearSelectionRect demo_world = (Normal (VObj a), w1)
    /\ heap demo_world !! a = None
    /\ heap w1 !! a = Some ([("type", VStr GRAPH_SELECTION_RECT_CLEAR)] : obj)
    /\ reducer (VObj 11%positive) (VObj a) w1 = (Normal (VObj r), w2)
    /\ forall (w3 : world) (gl : loc) (go : obj),
         heap_preserved (heap w2) (heap w3) -> heap w3 !! gl = Some go ->
         lookup_prop go MOUNT_POINT = VObj r ->
         getSelectionRect (VObj gl) w3 = (Normal VNull, w3).
Proof. exact (proj2 reset_clear_round_trip demo_world (VObj 11%positive) (ex_intro _ _ eq_refl)). Defined.

(** Extra.  [setContainerSize(arg)] applied by the reducer to any state
    gives a state from which [getContainerSize] returns the stored
    [graphSize] object itself, holding [arg]'s width and height; being an
    object it is truthy, so the default size is not used even for a zero
    width and height. *)
Theorem container_size_round_trip (w : world) (st arg : val) :
  val_in_heap (heap w) st -> non_nullish arg = true ->
  exists (a : loc) (w1 : world) (r : loc) (w2 : world),
    setContainerSize arg w = (Normal (VObj a), w1)
    /\ reducer st (VObj a) w1 = (Normal (VObj r), w2)
    /\ forall (w3 : world) (gl : loc) (go : obj),
         heap_preserved (heap w2) (heap w3) -> heap w3 !! gl = Some go ->
         lookup_prop go MOUNT_POINT = VObj r ->
         exists g : loc, getContainerSize (VObj gl) w3 = (Normal (VObj g), w3)
           /\ heap w3 !! g = Some ([("width", read_prop (heap w) arg "width");
                                    ("height", read_prop (heap w) arg "height")] : obj).
Proof.
  intros Hst Hnn.
  destruct (setContainerSize_spec w arg Hnn) as (a & p & w1 & Hc & Ha & Hp & Hpres1).
  assert (Hty : read_prop (heap w1) (VObj a) "type" = VStr GRAPH_SIZE_SET)
    by (rewrite (read_prop_obj _ _ _ _ Ha); reflexivity).
  assert (Hpay : read_prop (heap w1) (VObj a) "payload" = VObj p)
    by (rewrite (read_prop_obj _ _ _ _ Ha); reflexivity).
  destruct (reducer_graph_size_set w1 st (VObj a) (val_in_heap_preserved _ _ _ Hst Hpres1)
              (ex_intro _ _ Ha) eq_refl (VObj p) Hty Hpay (ex_intro _ _ Hp) eq_refl)
    as (r & g & w2 & Hred & Hr & Hg & _).
  exists a, w1, r, w2. split; [exact Hc|]. split; [exact Hred|].
  intros w3 gl go Hp3 Hgl Hmp. exists g.
  unfold getContainerSize, bind. rewrite (get_prop_obj _ _ _ _ Hgl), Hmp.
  rewrite (get_prop_obj _ _ _ _ (Hp3 _ _ Hr)), lookup_prop_set_prop_eq.
  split; [reflexivity|].
  rewrite (Hp3 _ _ Hg), !(read_prop_obj _ _ _ _ Hp). reflexivity.
Qed.

Lemma container_size_round_trip_witness :
  exists (a : loc) (w1 : world) (r : loc) (w2 : world),
    setContainerSize (VObj 3%positive) demo_world = (Normal (VObj a), w1)
    /\ reducer (VObj 1%positive) (VObj a) w1 = (Normal (VObj r), w2)
    /\ forall (w3 : world) (gl : loc) (go : obj),
         heap_preserved (heap w2) (heap w3) -> heap w3 !! gl = Some go ->
         lookup_prop go MOUNT_POINT = VObj r ->
         exists g : loc, getContainerSize (VObj gl) w3 = (Normal (VObj g), w3)
           /\ heap w3 !! g = Some ([("width", VNum 100); ("height", VNum 50)] : obj).
Proof.
  exact (container_size_round_trip demo_world (VObj 1%positive) (VObj 3%positive)
           (ex_intro _ _ eq_refl) eq_refl).
Defined.
